(** * The sleep / training-recovery cleaning and merging pipeline

    A shallow embedding of the three code cells of [PandasDFMerging.ipynb]
    that clean the two frames and merge them on the date.

    Conventions of the embedding.
    - A float64 value is an exact rational ([Q]); [NaN], the missing value
      of pandas, is [None].  Rounding and the infinities are not modelled.
    - A [Series] is the list of its cells in row order; a frame is the list
      of its named columns, next to its index.
    - A Python exception is a value of [exn], threaded by the [result]
      monad.
    - The string parsers behind [pd.to_datetime] and [pd.to_numeric] are
      library code: they are parameters of the development. *)

From Stdlib Require Import QArith Qfield Ascii String Lqa.
From stdpp Require Import base option list strings.

Set Default Proof Using "Type".

(** ** Exceptions and the result monad *)

Inductive exn : Type :=
| ParserError (s : string)               (* pd.to_datetime: unparseable text *)
| LengthMismatch (expected got : nat)    (* df.columns = labels, wrong count *)
| KeyError (label : string).             (* df[label], no such column *)

Inductive result (A : Type) : Type :=
| Ok (a : A)
| Raise (e : exn).
Arguments Ok {A} a.
Arguments Raise {A} e.

Global Instance result_ret : MRet result := fun A a => Ok a.

Global Instance result_bind : MBind result := fun A B k m =>
  match m with
  | Ok a => k a
  | Raise e => Raise e
  end.

(** ** Cells, series and frames *)

(** [datetime.date]. *)
Record date : Type := Date { year : Z; month : Z; day : Z }.

Global Instance date_eq_dec : EqDecision date.
Proof. solve_decision. Defined.

(** A float64 series; [None] is NaN. *)
Abbreviation Series := (list (option Q)).

(** A present cell of a column that [read_csv] left with dtype object or
    float64: a number or a piece of text. *)
Inductive obj : Type :=
| Num (q : Q)
| Str (s : string).

(** A frame as [read_csv] returns it: the [date] column still holds text,
    the other columns are kept in order with their labels.  Every date cell
    is taken present: an empty date cell, which pandas reads as [NaT], is
    not modelled. *)
Record RawFrame (A : Type) : Type := mkRaw {
  raw_date : list string;
  raw_cols : list (string * list (option A))
}.
Arguments mkRaw {A} _ _.
Arguments raw_date {A} _.
Arguments raw_cols {A} _.

(** A frame indexed by date. *)
Record DataFrame (A : Type) : Type := mkFrame {
  index : list date;
  columns : list (string * list (option A))
}.
Arguments mkFrame {A} _ _.
Arguments index {A} _.
Arguments columns {A} _.

(** Lookup of a label in a label-indexed list (first occurrence). *)
Fixpoint assoc {V : Type} (k : string) (l : list (string * V)) : option V :=
  match l with
  | [] => None
  | (k', v) :: l' => if decide (k = k') then Some v else assoc k l'
  end.

(** ** Series operations *)

Definition isnull {A : Type} (s : list (option A)) : list bool :=
  fmap (fun c => match c with None => true | Some _ => false end) s.

Definition dropna {A : Type} (s : list (option A)) : list A :=
  omap id s.

Definition Qsum (xs : list Q) : Q := foldr Qplus 0%Q xs.

(** [Series.mean()], computed the way pandas' [nanmean] does: the NaN cells
    count as 0 in the sum and are left out of the count; a series with no
    present cell has mean NaN. *)
Definition series_mean (s : Series) : option Q :=
  let count := length (dropna s) in
  let the_sum := Qsum (fmap (default 0%Q) s) in
  if decide (0 < count)%nat
  then Some (the_sum / inject_Z (Z.of_nat count))%Q
  else None.

(** [Series.fillna(value)]; filling with NaN changes nothing. *)
Definition fillna (s : Series) (value : option Q) : Series :=
  match value with
  | None => s
  | Some v => fmap (fun c => match c with None => Some v | Some x => Some x end) s
  end.

(** [DataFrame.mean()]: a series of means, labelled by column. *)
Definition frame_mean (df : DataFrame Q) : list (string * option Q) :=
  fmap (fun '(n, s) => (n, series_mean s)) (columns df).

(** [DataFrame.fillna(values)] with a label-indexed series of values: each
    column is filled with the value under its own label, if any. *)
Definition frame_fillna (df : DataFrame Q) (values : list (string * option Q))
  : DataFrame Q :=
  mkFrame (index df)
          (fmap (fun '(n, s) => (n, fillna s (mjoin (assoc n values)))) (columns df)).

(** Comparisons of a series with a scalar; NaN compares false. *)
Definition eq_scalar (s : Series) (v : Q) : list bool :=
  fmap (fun c => match c with Some x => Qeq_bool x v | None => false end) s.

Definition gt_scalar (s : Series) (v : Q) : list bool :=
  fmap (fun c => match c with Some x => negb (Qle_bool x v) | None => false end) s.

(** [Series.between(left, right)], both ends included. *)
Definition between (s : Series) (left right : Q) : list bool :=
  fmap (fun c => match c with
                | Some x => Qle_bool left x && Qle_bool x right
                | None => false
                end) s.

(** [np.select(condlist, choicelist)] with scalar choices and the default 0:
    the result starts as all-default and the pairs are written from the last
    to the first, so the first condition that holds wins. *)
Fixpoint np_select (n : nat) (condlist : list (list bool)) (choicelist : list Q)
  : list Q :=
  match condlist, choicelist with
  | cond :: condlist', choice :: choicelist' =>
      zip_with (fun (b : bool) r => if b then choice else r)
               cond (np_select n condlist' choicelist')
  | _, _ => replicate n 0%Q
  end.

(** [np.where(cond, x, y)]. *)
Fixpoint np_where (cond : list bool) (x : list Q) (y : Series) : Series :=
  match cond, x, y with
  | c :: cond', a :: x', b :: y' =>
      (if c then Some a else b) :: np_where cond' x' y'
  | _, _, _ => []
  end.

(** ** The two cleaners and the merge *)

Definition sleep_names : list string :=
  ["TotalSleep"; "Awake"; "REM"; "Light"; "Deep"; "Restless"; "Efficiency";
   "Latency"; "AvgRHR"; "LowRHR"; "AvgHRV"; "TDiff"; "RespR"].

Definition trrec_names : list string := ["RecPts"; "RPE"; "TSS"; "Beers"].

(** The cleaned training and recovery frame: three float64 columns and the
    untouched [Beers] column. *)
Record TrRecFrame : Type := mkTrRec {
  tr_index : list date;
  RecPts : Series;
  RPE : Series;
  TSS : Series;
  Beers : list (option obj)
}.

(** The merged frame [STR]. *)
Record STRFrame : Type := mkSTR {
  str_index : list date;
  str_sleep : list (string * Series);
  str_RecPts : Series;
  str_RPE : Series;
  str_TSS : Series;
  str_Beers : list (option obj)
}.

(** [df.set_index('date', inplace=True)]: the date column becomes the index.
    [verify_integrity] keeps its default [False], so equal dates are kept. *)
Definition set_index {A : Type} (dates : list date)
    (cols : list (string * list (option A))) : DataFrame A :=
  mkFrame dates cols.

(** [df.columns = labels]: positional relabelling. *)
Definition set_columns {A : Type} (labels : list string) (df : DataFrame A)
  : result (DataFrame A) :=
  if decide (length labels = length (columns df))
  then Ok (mkFrame (index df) (zip labels (fmap snd (columns df))))
  else Raise (LengthMismatch (length (columns df)) (length labels)).

(** [df[label]]. *)
Definition getitem {A : Type} (df : DataFrame A) (label : string)
  : result (list (option A)) :=
  match assoc label (columns df) with
  | Some s => Ok s
  | None => Raise (KeyError label)
  end.

(** Row positions of [d] in [r], counted from [j]. *)
Fixpoint matches (d : date) (r : list date) (j : nat) : list nat :=
  match r with
  | [] => []
  | d' :: r' =>
      if decide (d = d') then j :: matches d r' (S j) else matches d r' (S j)
  end.

(** The indexers of an inner join: for each left row, in order, the right
    rows with the same key.  When a date repeats on the left, some versions
    of pandas list the joined rows grouped by key instead; the theorems on
    [merge] are about which rows there are, not about their order. *)
Fixpoint inner_indexers (l r : list date) (i : nat) : list (nat * nat) :=
  match l with
  | [] => []
  | d :: l' => fmap (pair i) (matches d r 0) ++ inner_indexers l' r (S i)
  end.

(** [take]: the cells of a column at the given positions. *)
Definition take {A : Type} (pos : list nat) (col : list (option A))
  : list (option A) :=
  fmap (fun i => mjoin (col !! i)) pos.

(** [pd.merge(Sleep, TrRec, on='date')]; [how] defaults to ['inner']. *)
Definition merge (Sleep : DataFrame Q) (TrRec : TrRecFrame) : STRFrame :=
  let ix := inner_indexers (index Sleep) (tr_index TrRec) 0 in
  let li := fmap fst ix in
  let ri := fmap snd ix in
  mkSTR (omap (fun i => index Sleep !! i) li)
        (fmap (fun '(n, s) => (n, take li s)) (columns Sleep))
        (take ri (RecPts TrRec))
        (take ri (RPE TrRec))
        (take ri (TSS TrRec))
        (take ri (Beers TrRec)).

Section Pipeline.

(** [pd.to_datetime(text).date()] on one cell; [None] when the text is not
    a date. *)
Variable parse_date : string → option date.

(** The text-to-float parser of [pd.to_numeric]; [None] when the text is
    not a number. *)
Variable str_to_float : string → option Q.

(** [pd.to_datetime(col).dt.date]: raises at the first unparseable cell. *)
Fixpoint to_datetime (col : list string) : result (list date) :=
  match col with
  | [] => Ok []
  | s :: col' =>
      match parse_date s with
      | None => Raise (ParserError s)
      | Some d => ds ← to_datetime col'; Ok (d :: ds)
      end
  end.

(** [pd.to_numeric(col, errors='coerce')]: what does not parse is NaN. *)
Definition to_numeric_cell (c : option obj) : option Q :=
  match c with
  | None => None
  | Some (Num q) => Some q
  | Some (Str s) => str_to_float s
  end.

Definition to_numeric (col : list (option obj)) : Series :=
  fmap to_numeric_cell col.

(** Cell "Clean Dataframe 1: Sleep Data". *)
Definition clean_sleep (Sleep : RawFrame Q) : result (DataFrame Q) :=
  dates ← to_datetime (raw_date Sleep);
  let Sleep := set_index dates (raw_cols Sleep) in
  Sleep ← set_columns sleep_names Sleep;
  Ok (frame_fillna Sleep (frame_mean Sleep)).

(** Cell "Clean Dataframe 2: Training and Recovery Data".  No statement of
    the cell mentions [Beers]: the column is read at the end only to put it,
    as it is, in the typed record. *)
Definition clean_trrec (TrRec : RawFrame obj) : result TrRecFrame :=
  dates ← to_datetime (raw_date TrRec);
  let TrRec := set_index dates (raw_cols TrRec) in
  TrRec ← set_columns trrec_names TrRec;
  recpts ← getitem TrRec "RecPts";
  let RecPts := to_numeric recpts in
  let RecPts := fillna RecPts (series_mean RecPts) in
  rpe ← getitem TrRec "RPE";
  let RPE := to_numeric rpe in
  let RPE := fillna RPE (Some 0%Q) in
  tss ← getitem TrRec "TSS";
  let TSS := to_numeric tss in
  let conditions :=
    [eq_scalar RPE 0%Q; between RPE 0.1%Q 3%Q; between RPE 3.1%Q 5%Q;
     between RPE 5.1%Q 7%Q; gt_scalar RPE 7%Q] in
  let values := [0; 41; 53; 77; 85]%Q in
  let TSS := np_where (isnull TSS) (np_select (length RPE) conditions values) TSS in
  beers ← getitem TrRec "Beers";
  Ok (mkTrRec (index TrRec) RecPts RPE TSS beers).

(** The three cells in order; [STR.to_csv] only writes the result out. *)
Definition pipeline (Sleep : RawFrame Q) (TrRec : RawFrame obj)
  : result STRFrame :=
  Sleep ← clean_sleep Sleep;
  TrRec ← clean_trrec TrRec;
  Ok (merge Sleep TrRec).

End Pipeline.

(** ** One instance of the two parsers

    Both library parsers accept far more than this; the instances below read
    ISO dates ([YYYY-MM-DD]) and plain signed decimals, which is enough to
    run the pipeline on concrete tables. *)

Definition digit_of (c : ascii) : option Z :=
  let n := nat_of_ascii c in
  if (48 <=? n)%nat && (n <=? 57)%nat then Some (Z.of_nat (n - 48)) else None.

Fixpoint digits_acc (acc : Z) (s : string) : option Z :=
  match s with
  | EmptyString => Some acc
  | String c s' => d ← digit_of c; digits_acc (10 * acc + d) s'
  end.

Definition digits (s : string) : option Z :=
  match s with
  | EmptyString => None
  | _ => digits_acc 0 s
  end.

Definition iso_date (s : string) : option date :=
  if decide (String.length s = 10%nat)
  then
    y ← digits (substring 0 4 s);
    m ← digits (substring 5 2 s);
    d ← digits (substring 8 2 s);
    if decide (String.get 4 s = Some "-"%char ∧ String.get 7 s = Some "-"%char
               ∧ 1 ≤ m ≤ 12 ∧ 1 ≤ d ≤ 31)%Z
    then Some (Date y m d)
    else None
  else None.

Definition unsigned_decimal (s : string) : option Q :=
  match String.index 0 "." s with
  | None => inject_Z <$> digits s
  | Some k =>
      let frac := substring (S k) (String.length s - S k) s in
      i ← digits (substring 0 k s);
      f ← digits frac;
      Some (inject_Z i + inject_Z f / inject_Z (10 ^ Z.of_nat (String.length frac)))%Q
  end.

Definition decimal_float (s : string) : option Q :=
  match s with
  | String "-" s' => Qopp <$> unsigned_decimal s'
  | _ => unsigned_decimal s
  end.

(** ** The rule table, row by row *)

(** The five conditions of [clean_trrec] on one cell of [RPE]. *)
Definition tss_conditions : list (option Q → bool) :=
  [ (fun c => match c with Some x => Qeq_bool x 0%Q | None => false end);
    (fun c => match c with Some x => Qle_bool 0.1%Q x && Qle_bool x 3%Q | None => false end);
    (fun c => match c with Some x => Qle_bool 3.1%Q x && Qle_bool x 5%Q | None => false end);
    (fun c => match c with Some x => Qle_bool 5.1%Q x && Qle_bool x 7%Q | None => false end);
    (fun c => match c with Some x => negb (Qle_bool x 7%Q) | None => false end) ].

Definition tss_values : list Q := [0; 41; 53; 77; 85]%Q.

(** What [np.select] leaves in one row. *)
Fixpoint select_row (conds : list (option Q → bool)) (choices : list Q)
    (c : option Q) : Q :=
  match conds, choices with
  | p :: conds', v :: choices' => if p c then v else select_row conds' choices' c
  | _, _ => 0%Q
  end.

(** ** The words of the specification *)

(** The arithmetic mean of the present values of a column. *)
Definition arithmetic_mean (xs : list Q) : Q :=
  (Qsum xs / inject_Z (Z.of_nat (length xs)))%Q.

(** The exertion-rating lookup table of the specification, in its order. *)
Definition spec_tss_table : list ((Q → Prop) * Q) :=
  [ (fun r => r == 0, 0);
    (fun r => 0.1 <= r ∧ r <= 3, 41);
    (fun r => 3.1 <= r ∧ r <= 5, 53);
    (fun r => 5.1 <= r ∧ r <= 7, 77);
    (fun r => 7 < r, 85) ]%Q.

(** [first_match table r v]: [v] is the value of the first row of [table]
    whose range holds of [r]. *)
Inductive first_match : list ((Q → Prop) * Q) → Q → Q → Prop :=
| fm_here (P : Q → Prop) v table r :
    P r → first_match ((P, v) :: table) r v
| fm_later (P : Q → Prop) w table r v :
    ¬ P r → first_match table r v → first_match ((P, w) :: table) r v.

(** No row of the table holds of [r]. *)
Definition no_match (table : list ((Q → Prop) * Q)) (r : Q) : Prop :=
  Forall (fun row => ¬ row.1 r) table.

(** The dates present in both sources. *)
Definition dates_in_both (l r : list date) : list date :=
  remove_dups (filter (fun d => d ∈ r) l).

(** A series has no missing value. *)
Definition complete {A : Type} (s : list (option A)) : Prop :=
  Forall (fun c => c ≠ None) s.

(** A series has nothing but missing values. *)
Definition all_missing {A : Type} (s : list (option A)) : Prop :=
  Forall (fun c => c = None) s.

(** ** Sample tables *)

(** Three nights; the Deep value of the second is missing and the
    temperature column is empty. *)
Definition sleep_sample : RawFrame Q :=
  mkRaw ["2019-06-01"; "2019-06-02"; "2019-06-03"]
    [ ("Total Sleep Time", [Some 7.5; Some 6; Some 8]);
      ("Awake Time", [Some 0.5; None; Some 1]);
      ("REM Sleep Time", [Some 2; Some 1.5; Some 2]);
      ("Light Sleep Time", [Some 4; Some 3; Some 3.5]);
      ("Deep Sleep Time", [Some 1.5; None; Some 2.5]);
      ("Restless Sleep", [Some 30; Some 41; None]);
      ("Sleep Efficiency", [Some 92; Some 88; Some 90]);
      ("Sleep Latency", [Some 0.2; Some 0.1; Some 0.3]);
      ("Average Resting Heart Rate", [Some 48; Some 50; Some 47]);
      ("Lowest Resting Heart Rate", [Some 44; Some 45; Some 43]);
      ("Average HRV", [Some 80; None; Some 90]);
      ("Temperature Deviation", [None; None; None]);
      ("Respiratory Rate", [Some 14; Some 14.5; Some 15]) ]%Q.

(** Three days; the recovery points were read as text, the score of the
    second day is missing with a rating of 4, the third day has no workout,
    and one alcohol cell is empty. *)
Definition trrec_sample : RawFrame obj :=
  mkRaw ["2019-06-02"; "2019-06-03"; "2019-06-04"]
    [ ("HRV4T_Recovery_Points", [Some (Str "7.5"); Some (Str "n/a"); None]);
      ("trainingRPE", [Some (Num 2); Some (Num 4); None]);
      ("trainingTSS", [Some (Num 100); None; None]);
      ("alcohol", [None; Some (Num 1); Some (Num 2)]) ]%Q.

(** Three days without a score, with ratings outside every range of the
    rule table. *)
Definition trrec_off_table : RawFrame obj :=
  mkRaw ["2019-06-05"; "2019-06-06"; "2019-06-07"]
    [ ("HRV4T_Recovery_Points", [Some (Num 7); Some (Num 8); Some (Num 9)]);
      ("trainingRPE", [Some (Num (-1)); Some (Num 3.05); Some (Num 5.05)]);
      ("trainingTSS", [None; None; None]);
      ("alcohol", [Some (Num 0); Some (Num 0); Some (Num 1)]) ]%Q.

(** Two rows of the same day. *)
Definition trrec_same_day : RawFrame obj :=
  mkRaw ["2019-06-02"; "2019-06-02"]
    [ ("HRV4T_Recovery_Points", [Some (Num 7); Some (Num 9)]);
      ("trainingRPE", [Some (Num 2); Some (Num 6)]);
      ("trainingTSS", [None; None]);
      ("alcohol", [Some (Num 0); Some (Num 1)]) ]%Q.

(** Two cleaned tables sharing two of their three dates. *)
Definition sleep_cleaned_sample : DataFrame Q :=
  mkFrame [Date 2019 6 1; Date 2019 6 2; Date 2019 6 3]
    [ ("Deep", [Some 1.5; Some 2; Some 2.5]);
      ("REM", [Some 2; Some 1.5; Some 2]) ]%Q.

Definition trrec_cleaned_sample : TrRecFrame :=
  mkTrRec [Date 2019 6 2; Date 2019 6 3; Date 2019 6 4]
    [Some 7.5; Some 7.5; Some 7.5]%Q
    [Some 2; Some 4; Some 0]%Q
    [Some 100; Some 53; Some 0]%Q
    [None; Some (Num 1); Some (Num 2)].

(** ** Shapes and counts *)

(** Every column has one cell per row. *)
Definition rectangular_raw {A : Type} (df : RawFrame A) : Prop :=
  Forall (fun c => length c.2 = length (raw_date df)) (raw_cols df).

Definition rectangular {A : Type} (df : DataFrame A) : Prop :=
  Forall (fun c => length c.2 = length (index df)) (columns df).

Definition rectangular_trrec (f : TrRecFrame) : Prop :=
  length (RecPts f) = length (tr_index f)
  ∧ length (RPE f) = length (tr_index f)
  ∧ length (TSS f) = length (tr_index f)
  ∧ length (Beers f) = length (tr_index f).

Definition rectangular_str (STR : STRFrame) : Prop :=
  Forall (fun c => length c.2 = length (str_index STR)) (str_sleep STR)
  ∧ length (str_RecPts STR) = length (str_index STR)
  ∧ length (str_RPE STR) = length (str_index STR)
  ∧ length (str_TSS STR) = length (str_index STR)
  ∧ length (str_Beers STR) = length (str_index STR).

(** The number of rows of an index that carry the date [d]. *)
Definition rows_dated (d : date) (ix : list date) : nat :=
  length (filter (fun d' => d' = d) ix).

(** Row [k] of the merged table is row [i] of the Sleep table next to row
    [j] of the Training/Recovery table: it carries their cells. *)
Definition combined_row (Sleep : DataFrame Q) (TrRec : TrRecFrame)
    (STR : STRFrame) (k i j : nat) : Prop :=
  (∀ (p : nat) n s, columns Sleep !! p = Some (n, s) →
      ∃ s', str_sleep STR !! p = Some (n, s')
            ∧ ∀ c, s !! i = Some c → s' !! k = Some c)
  ∧ (∀ c, RecPts TrRec !! j = Some c → str_RecPts STR !! k = Some c)
  ∧ (∀ c, RPE TrRec !! j = Some c → str_RPE STR !! k = Some c)
  ∧ (∀ c, TSS TrRec !! j = Some c → str_TSS STR !! k = Some c)
  ∧ (∀ c, Beers TrRec !! j = Some c → str_Beers STR !! k = Some c).

(** A Sleep table whose second date is not a date, and a Training/Recovery
    table that lacks the alcohol column. *)
Definition sleep_bad_date : RawFrame Q :=
  mkRaw ["2019-06-01"; "yesterday"; "tomorrow"] (raw_cols sleep_sample).

Definition trrec_three_columns : RawFrame obj :=
  mkRaw ["2019-06-02"; "2019-06-03"; "2019-06-04"]
    [ ("HRV4T_Recovery_Points", [Some (Num 7); Some (Num 8); Some (Num 9)]);
      ("trainingRPE", [Some (Num 2); Some (Num 4); None]);
      ("trainingTSS", [Some (Num 100); None; None]) ]%Q.

(** The sample with the rating and score columns in the other order, under
    other labels. *)
Definition trrec_relabelled : RawFrame obj :=
  mkRaw ["2019-06-02"; "2019-06-03"; "2019-06-04"]
    [ ("recovery", [Some (Str "7.5"); Some (Str "n/a"); None]);
      ("rpe", [Some (Num 2); Some (Num 4); None]);
      ("tss", [Some (Num 100); None; None]);
      ("beers", [None; Some (Num 1); Some (Num 2)]) ]%Q.

(** * Properties *)

Section SeriesFacts.

Lemma assoc_fmap {V W : Type} (f : string → V → W) k (l : list (string * V)) :
  assoc k ((fun '(n, s) => (n, f n s)) <$> l) = f k <$> assoc k l.
Proof.
  induction l as [|[n s] l IH]; simpl; [done|].
  destruct (decide (k = n)) as [->|]; [done|]. apply IH.
Qed.

Lemma fillna_lookup (s : Series) v i :
  fillna s v !! i
  = (fun c => match c with None => v | Some x => Some x end) <$> s !! i.
Proof.
  destruct v as [m|]; unfold fillna.
  - by rewrite list_lookup_fmap.
  - destruct (s !! i) as [[x|]|]; done.
Qed.

Lemma length_fillna (s : Series) v : length (fillna s v) = length s.
Proof. destruct v; unfold fillna; [by rewrite length_fmap|done]. Qed.

Lemma fillna_complete (s : Series) m : complete (fillna s (Some m)).
Proof.
  unfold complete, fillna. apply Forall_fmap, Forall_forall.
  intros [x|] _; done.
Qed.

Lemma fillna_of_complete (s : Series) v : complete s → fillna s v = s.
Proof.
  intros Hs. destruct v as [m|]; [|done]. unfold fillna.
  induction Hs as [|[x|] s Hc Hs IH]; [done| |done].
  by rewrite fmap_cons, IH.
Qed.

Lemma dropna_nil (s : Series) : dropna s = [] ↔ all_missing s.
Proof.
  unfold dropna, all_missing. induction s as [|[x|] s IH]; simpl.
  - split; [constructor|done].
  - split; [done|]. by inversion 1.
  - rewrite IH. split; [by constructor|by inversion 1].
Qed.

Lemma series_mean_None (s : Series) : series_mean s = None ↔ all_missing s.
Proof.
  rewrite <- dropna_nil. unfold series_mean.
  destruct (dropna s) as [|x xs]; cbn [length]; case_decide; try lia.
  - done.
  - split; discriminate.
Qed.

Lemma Qsum_default (s : Series) :
  (Qsum (default 0 <$> s) == Qsum (dropna s))%Q.
Proof.
  unfold dropna. induction s as [|[x|] s IH]; simpl.
  - reflexivity.
  - by rewrite IH.
  - rewrite IH. apply Qplus_0_l.
Qed.

Lemma series_mean_Some (s : Series) :
  ¬ all_missing s →
  ∃ m, series_mean s = Some m ∧ (m == arithmetic_mean (dropna s))%Q.
Proof.
  rewrite <- dropna_nil. intros Hne. unfold series_mean, arithmetic_mean.
  case_decide as Hc.
  - eexists; split; [done|]. by rewrite Qsum_default.
  - destruct (dropna s); [done|simpl in Hc; lia].
Qed.

Lemma series_mean_complete (s : Series) :
  complete (fillna s (series_mean s)) ∨ all_missing s.
Proof.
  destruct (series_mean s) as [m|] eqn:Hm.
  - left. apply fillna_complete.
  - right. by apply series_mean_None.
Qed.

(** Filling a filled series with its recomputed mean keeps it as it is. *)
Lemma fill_mean_idempotent (s : Series) :
  let s' := fillna s (series_mean s) in
  fillna s' (series_mean s') = s'.
Proof.
  simpl. destruct (series_mean s) as [m|] eqn:Hm.
  - apply fillna_of_complete, fillna_complete.
  - simpl. by rewrite Hm.
Qed.

End SeriesFacts.

Section ArrayFacts.

(** [np.select] over conditions that are computed cell by cell from one
    series is [select_row] in every row. *)
Lemma np_select_rows (conds : list (option Q → bool)) (choices : list Q)
    (s : Series) :
  np_select (length s) ((fun p => p <$> s) <$> conds) choices
  = select_row conds choices <$> s.
Proof.
  revert choices. induction conds as [|p conds IH]; intros choices.
  - cbn [fmap list_fmap np_select select_row]. symmetry. by apply const_fmap.
  - destruct choices as [|v choices].
    + cbn [fmap list_fmap np_select select_row]. symmetry. by apply const_fmap.
    + rewrite fmap_cons. cbn [np_select select_row].
      rewrite IH, zip_with_fmap_l, zip_with_fmap_r. apply zip_with_diag.
Qed.

Lemma np_where_lookup (cond : list bool) (x : list Q) (y : Series)
    (i : nat) (c : bool) (a : Q) (b : option Q) :
  cond !! i = Some c → x !! i = Some a → y !! i = Some b →
  np_where cond x y !! i = Some (if c then Some a else b).
Proof.
  revert x y i. induction cond as [|c0 cond IH]; intros [|a0 x] [|b0 y] [|i];
    try done.
  - cbn. by intros [= ->] [= ->] [= ->].
  - cbn. apply IH.
Qed.


(** Where the third argument is missing the second is taken: nothing
    missing is left. *)
Lemma np_where_isnull_complete (x : list Q) (y : Series) :
  complete (np_where (isnull y) x y).
Proof.
  unfold complete. revert x. induction y as [|b y IH]; intros [|a x];
    try by constructor.
  cbn. constructor; [|apply IH]. by destruct b.
Qed.

Lemma assoc_NoDup {V : Type} (l : list (string * V)) n v :
  NoDup l.*1 → (n, v) ∈ l → assoc n l = Some v.
Proof.
  induction l as [|[n' v'] l IH]; [by intros _ ?%elem_of_nil|].
  rewrite fmap_cons, NoDup_cons, elem_of_cons. cbn.
  intros [Hn Hnd] [[= -> ->]|Hin].
  - by rewrite decide_True.
  - rewrite decide_False; [by apply IH|].
    intros ->. apply Hn. by apply (list_elem_of_fmap_2 fst) in Hin.
Qed.

(** With distinct labels [df.fillna(df.mean())] fills every column with
    its own mean. *)
Lemma frame_fillna_mean (df : DataFrame Q) :
  NoDup (columns df).*1 →
  frame_fillna df (frame_mean df)
  = mkFrame (index df)
      ((fun '(n, s) => (n, fillna s (series_mean s))) <$> columns df).
Proof.
  intros Hnd. unfold frame_fillna, frame_mean. f_equal.
  apply list_fmap_ext. intros i [n s] Hi. f_equal.
  rewrite (assoc_fmap (fun _ s => series_mean s)).
  by rewrite (assoc_NoDup _ n s Hnd (list_elem_of_lookup_2 _ _ _ Hi)).
Qed.

Lemma fmap_snd_zip {A B C : Type} (g : B → C) (l : list A) (k : list B) :
  (fun '(n, s) => (n, g s)) <$> zip l k = zip l (g <$> k).
Proof.
  revert k. induction l as [|a l IH]; intros [|b k]; try done.
  cbn. by rewrite <- IH.
Qed.

End ArrayFacts.

Section PipelineFacts.

Variable parse_date : string → option date.
Variable str_to_float : string → option Q.

Lemma to_datetime_Ok (col : list string) (dates : list date) :
  to_datetime parse_date col = Ok dates ↔ parse_date <$> col = Some <$> dates.
Proof.
  revert dates. induction col as [|s col IH]; intros dates.
  - destruct dates; cbn; split; intros [=]; done.
  - cbn [to_datetime]. rewrite fmap_cons.
    destruct (parse_date s) as [d|].
    + destruct (to_datetime parse_date col) as [ds|e] eqn:Hds.
      * cbn. pose proof (proj1 (IH ds) eq_refl) as Hcol. split.
        -- intros [= <-]. by rewrite Hcol.
        -- destruct dates as [|d' dates]; [done|]. rewrite fmap_cons.
           rewrite Hcol. intros [= -> Hd]. do 2 f_equal.
           by apply (inj (fmap Some)).
      * cbn. split; [done|].
        destruct dates as [|d' dates]; [done|]. rewrite fmap_cons.
        intros [= -> Hd]. by apply IH in Hd.
    + split; [done|]. by destruct dates.
Qed.


Lemma NoDup_sleep_names : NoDup sleep_names.
Proof. apply (bool_decide_unpack _). by vm_compute. Qed.

(** The Sleep cleaner succeeds exactly on parseable dates and thirteen
    metric columns, and then fills every column with its own mean. *)
Lemma clean_sleep_Ok (Sleep : RawFrame Q) (f : DataFrame Q) :
  clean_sleep parse_date Sleep = Ok f ↔
  ∃ dates,
    to_datetime parse_date (raw_date Sleep) = Ok dates
    ∧ length (raw_cols Sleep) = 13%nat
    ∧ f = mkFrame dates
            (zip sleep_names
                 ((fun s => fillna s (series_mean s)) <$> (raw_cols Sleep).*2)).
Proof.
  unfold clean_sleep.
  destruct (to_datetime parse_date (raw_date Sleep)) as [dates|e];
    cbn [mbind result_bind];
    [|split; [done|by intros (? & ? & _)]].
  unfold set_columns, set_index; cbn [columns index].
  case_decide as Hlen; cbn [mbind result_bind].
  - rewrite frame_fillna_mean; cbn [columns index].
    + rewrite fmap_snd_zip. split.
      * intros [= <-]. by exists dates.
      * by intros (? & [= <-] & _ & ->).
    + rewrite fst_zip; [apply NoDup_sleep_names|].
      rewrite length_fmap, <- Hlen. done.
  - split; [done|]. intros (? & _ & Hl & _). rewrite Hl in Hlen. done.
Qed.

Lemma getitem_trrec_names {A : Type} dates (c1 c2 c3 c4 : list (option A)) :
  let df := mkFrame dates (zip trrec_names [c1; c2; c3; c4]) in
  getitem df "RecPts" = Ok c1 ∧ getitem df "RPE" = Ok c2
  ∧ getitem df "TSS" = Ok c3 ∧ getitem df "Beers" = Ok c4.
Proof. by vm_compute. Qed.

(** The Training/Recovery cleaner succeeds exactly on parseable dates and
    four metric columns; the cleaned columns are as follows. *)
Lemma clean_trrec_Ok (TrRec : RawFrame obj) (f : TrRecFrame) :
  clean_trrec parse_date str_to_float TrRec = Ok f ↔
  ∃ dates n1 c1 n2 c2 n3 c3 n4 c4,
    to_datetime parse_date (raw_date TrRec) = Ok dates
    ∧ raw_cols TrRec = [(n1, c1); (n2, c2); (n3, c3); (n4, c4)]
    ∧ f = mkTrRec dates
            (fillna (to_numeric str_to_float c1)
                    (series_mean (to_numeric str_to_float c1)))
            (fillna (to_numeric str_to_float c2) (Some 0%Q))
            (np_where (isnull (to_numeric str_to_float c3))
               (select_row tss_conditions tss_values
                  <$> fillna (to_numeric str_to_float c2) (Some 0%Q))
               (to_numeric str_to_float c3))
            c4.
Proof.
  unfold clean_trrec.
  destruct (to_datetime parse_date (raw_date TrRec)) as [dates|e];
    cbn [mbind result_bind];
    [|split; [done|by intros (? & ? & ? & ? & ? & ? & ? & ? & ? & ? & _)]].
  unfold set_columns, set_index; cbn [columns index].
  case_decide as Hlen; cbn [mbind result_bind].
  - destruct (raw_cols TrRec)
      as [|[n1 c1] [|[n2 c2] [|[n3 c3] [|[n4 c4] [|? ?]]]]]; try done.
    cbn [fmap list_fmap snd].
    destruct (getitem_trrec_names dates c1 c2 c3 c4) as (-> & -> & -> & ->).
    cbn [mbind result_bind].
    change [eq_scalar ?r _; between ?r _ _; between ?r _ _; between ?r _ _;
            gt_scalar ?r _]
      with ((fun p => p <$> r) <$> tss_conditions).
    change [0; 41; 53; 77; 85]%Q with tss_values.
    rewrite np_select_rows. split.
    + intros [= <-]. by exists dates, n1, c1, n2, c2, n3, c3, n4, c4.
    + intros (? & ? & ? & ? & ? & ? & ? & ? & ? & Hd & Hc & ->).
      by simplify_eq.
  - split; [done|].
    intros (? & ? & ? & ? & ? & ? & ? & ? & ? & _ & Hc & _).
    rewrite Hc in Hlen. done.
Qed.

(** One row of the cleaned [TSS] column: a present score is kept, a
    missing one is taken from the rule table at the cleaned [RPE]. *)
Lemma TSS_row (TrRec : RawFrame obj) (f : TrRecFrame) n3 c3 i tcell rpe :
  clean_trrec parse_date str_to_float TrRec = Ok f →
  raw_cols TrRec !! 2%nat = Some (n3, c3) →
  c3 !! i = Some tcell →
  RPE f !! i = Some rpe →
  TSS f !! i
  = Some (match to_numeric_cell str_to_float tcell with
          | Some x => Some x
          | None => Some (select_row tss_conditions tss_values rpe)
          end).
Proof.
  intros (dates & n1 & c1 & n2 & c2 & n3' & c3' & n4 & c4 & _ & Hc & ->)
    %clean_trrec_Ok.
  rewrite Hc. intros [= <- <-] Ht. cbn [RPE TSS]. intros Hr.
  erewrite np_where_lookup; cycle 1.
  - unfold isnull, to_numeric. by rewrite !list_lookup_fmap, Ht.
  - by rewrite list_lookup_fmap, Hr.
  - unfold to_numeric. by rewrite list_lookup_fmap, Ht.
  - cbn. by destruct (to_numeric_cell str_to_float tcell).
Qed.

End PipelineFacts.

Section RuleTable.

(** The conditions of the code decide the ranges of the specification. *)
Lemma tss_conditions_spec :
  Forall2 (fun (p : option Q → bool) (row : (Q → Prop) * Q) =>
             ∀ r, p (Some r) = true ↔ row.1 r)
          tss_conditions spec_tss_table.
Proof.
  unfold tss_conditions, spec_tss_table.
  repeat (constructor; [intros r; cbn [fst]|]); [..|constructor];
    rewrite ?andb_true_iff, ?negb_true_iff, ?Qle_bool_iff, ?Qeq_bool_iff;
    try done.
  rewrite <- not_true_iff_false, Qle_bool_iff.
  split; [apply Qnot_le_lt|apply Qlt_not_le].
Qed.

Lemma tss_values_spec : tss_values = spec_tss_table.*2.
Proof. done. Qed.

Lemma select_row_first_match conds table r v :
  Forall2 (fun (p : option Q → bool) (row : (Q → Prop) * Q) =>
             ∀ r, p (Some r) = true ↔ row.1 r) conds table →
  first_match table r v →
  select_row conds table.*2 (Some r) = v.
Proof.
  intros Hrel Hfm. revert conds Hrel.
  induction Hfm as [P v table r HP|P w table r v HP Hfm IH];
    intros conds Hrel; inversion Hrel as [|p row conds' table' Hp Hrel']; subst;
    rewrite fmap_cons; cbn [select_row snd].
  - apply Hp in HP. by rewrite HP.
  - destruct (p (Some r)) eqn:Hpr; [by apply Hp in Hpr|]. by apply IH.
Qed.

Lemma select_row_no_match conds table r :
  Forall2 (fun (p : option Q → bool) (row : (Q → Prop) * Q) =>
             ∀ r, p (Some r) = true ↔ row.1 r) conds table →
  no_match table r →
  select_row conds table.*2 (Some r) = 0%Q.
Proof.
  unfold no_match. intros Hrel. induction Hrel as [|p row conds table Hp Hrel IH].
  - done.
  - rewrite Forall_cons, fmap_cons. intros [Hrow Hrest]. cbn [select_row].
    destruct (p (Some r)) eqn:Hpr; [by apply Hp in Hpr|]. by apply IH.
Qed.

(** The table at the five sample ratings. *)
Lemma first_match_samples (r : Q) :
  ((r == 0)%Q → first_match spec_tss_table r 0%Q)
  ∧ ((r == 2)%Q → first_match spec_tss_table r 41%Q)
  ∧ ((r == 4)%Q → first_match spec_tss_table r 53%Q)
  ∧ ((r == 6)%Q → first_match spec_tss_table r 77%Q)
  ∧ ((r == 8)%Q → first_match spec_tss_table r 85%Q).
Proof.
  unfold spec_tss_table. repeat split; intros Hr;
    repeat first
      [ by (apply fm_here; cbn; rewrite Hr; try split)
      | apply fm_later; [cbn; rewrite Hr; try (intros [? ?]); done|] ].
Qed.

End RuleTable.

Section CleanerTheorems.

Variable parse_date : string → option date.
Variable str_to_float : string → option Q.

(** C3. In a row whose training-stress-score is missing after coercion the
    cleaned score is the value of the first row of the ordered rule table
    whose range holds of the cleaned exertion-rating; for the ratings
    0, 2, 4, 6 and 8 it is 0, 41, 53, 77 and 85. *)
Theorem tss_imputed_by_first_match
    (TrRec : RawFrame obj) (f : TrRecFrame) n3 c3 (i : nat) tcell (r : Q) :
  clean_trrec parse_date str_to_float TrRec = Ok f →
  raw_cols TrRec !! 2%nat = Some (n3, c3) →
  c3 !! i = Some tcell →
  to_numeric_cell str_to_float tcell = None →
  RPE f !! i = Some (Some r) →
  (∀ v, first_match spec_tss_table r v → TSS f !! i = Some (Some v))
  ∧ ((r == 0)%Q → TSS f !! i = Some (Some 0%Q))
  ∧ ((r == 2)%Q → TSS f !! i = Some (Some 41%Q))
  ∧ ((r == 4)%Q → TSS f !! i = Some (Some 53%Q))
  ∧ ((r == 6)%Q → TSS f !! i = Some (Some 77%Q))
  ∧ ((r == 8)%Q → TSS f !! i = Some (Some 85%Q)).
Proof.
  intros Hf Hc Ht Hnan Hr.
  assert (Hfirst : ∀ v, first_match spec_tss_table r v →
                        TSS f !! i = Some (Some v)).
  { intros v Hv.
    rewrite (TSS_row _ _ _ _ _ _ _ _ _ Hf Hc Ht Hr), Hnan.
    rewrite tss_values_spec.
    by rewrite (select_row_first_match _ _ _ _ tss_conditions_spec Hv). }
  destruct (first_match_samples r) as (H0 & H2 & H4 & H6 & H8).
  repeat split; auto.
Qed.

(** C8. In a row whose training-stress-score is present after coercion
    the cleaned score is that value, whatever the exertion-rating. *)
Theorem tss_present_unchanged
    (TrRec : RawFrame obj) (f : TrRecFrame) n3 c3 (i : nat) tcell (x : Q) rpe :
  clean_trrec parse_date str_to_float TrRec = Ok f →
  raw_cols TrRec !! 2%nat = Some (n3, c3) →
  c3 !! i = Some tcell →
  to_numeric_cell str_to_float tcell = Some x →
  RPE f !! i = Some rpe →
  TSS f !! i = Some (Some x).
Proof.
  intros Hf Hc Ht Hx Hr.
  by rewrite (TSS_row _ _ _ _ _ _ _ _ _ Hf Hc Ht Hr), Hx.
Qed.

(** C10. In a row whose training-stress-score is missing after coercion
    and whose cleaned exertion-rating is in none of the five ranges, the
    cleaned score is 0; so it is for a negative rating and for one
    strictly between 3.0 and 3.1 or strictly between 5.0 and 5.1. *)
Theorem tss_fallback_zero
    (TrRec : RawFrame obj) (f : TrRecFrame) n3 c3 (i : nat) tcell (r : Q) :
  clean_trrec parse_date str_to_float TrRec = Ok f →
  raw_cols TrRec !! 2%nat = Some (n3, c3) →
  c3 !! i = Some tcell →
  to_numeric_cell str_to_float tcell = None →
  RPE f !! i = Some (Some r) →
  (no_match spec_tss_table r → TSS f !! i = Some (Some 0%Q))
  ∧ ((r < 0)%Q → TSS f !! i = Some (Some 0%Q))
  ∧ ((3 < r)%Q ∧ (r < 3.1)%Q → TSS f !! i = Some (Some 0%Q))
  ∧ ((5 < r)%Q ∧ (r < 5.1)%Q → TSS f !! i = Some (Some 0%Q)).
Proof.
  intros Hf Hc Ht Hnan Hr.
  assert (Hnone : no_match spec_tss_table r → TSS f !! i = Some (Some 0%Q)).
  { intros Hno.
    rewrite (TSS_row _ _ _ _ _ _ _ _ _ Hf Hc Ht Hr), Hnan.
    rewrite tss_values_spec.
    by rewrite (select_row_no_match _ _ _ tss_conditions_spec Hno). }
  split; [done|].
  repeat split; intros Hrange; apply Hnone; unfold no_match, spec_tss_table;
    repeat (apply Forall_cons; split; [cbn [fst]|]); try apply Forall_nil;
    lra.
Qed.

(** C7. Whatever the cells of the recovery-score and exertion-rating
    columns are, the cleaner returns as soon as the dates parse and the
    four metric columns are there: a cell that fails coercion is missing,
    not an error.  In the cleaned frame a recovery-score that coerces to a
    number is that number and any other is the mean of the coerced column,
    which is the arithmetic mean of its present values; an
    exertion-rating that coerces to a number is that number and any other
    is 0. *)
Theorem trrec_coercion_and_fill
    (TrRec : RawFrame obj) dates n1 c1 n2 c2 n3 c3 n4 c4 :
  to_datetime parse_date (raw_date TrRec) = Ok dates →
  raw_cols TrRec = [(n1, c1); (n2, c2); (n3, c3); (n4, c4)] →
  ∃ f, clean_trrec parse_date str_to_float TrRec = Ok f
    ∧ (∀ s, str_to_float s = None →
            to_numeric_cell str_to_float (Some (Str s)) = None)
    ∧ (∀ (i : nat) cell, c1 !! i = Some cell →
         RecPts f !! i
         = Some (match to_numeric_cell str_to_float cell with
                 | Some x => Some x
                 | None => series_mean (to_numeric str_to_float c1)
                 end))
    ∧ (¬ all_missing (to_numeric str_to_float c1) →
         ∃ m, series_mean (to_numeric str_to_float c1) = Some m
              ∧ (m == arithmetic_mean (dropna (to_numeric str_to_float c1)))%Q)
    ∧ (∀ (i : nat) cell, c2 !! i = Some cell →
         RPE f !! i
         = Some (Some (default 0%Q (to_numeric_cell str_to_float cell)))).
Proof.
  intros Hd Hc. eexists. split.
  { apply clean_trrec_Ok. by exists dates, n1, c1, n2, c2, n3, c3, n4, c4. }
  cbn [RecPts RPE]. split; [done|]. split; [|split].
  - intros i cell Hi. rewrite fillna_lookup. unfold to_numeric.
    rewrite list_lookup_fmap, Hi. cbn.
    by destruct (to_numeric_cell str_to_float cell).
  - apply series_mean_Some.
  - intros i cell Hi. rewrite fillna_lookup. unfold to_numeric.
    rewrite list_lookup_fmap, Hi. cbn.
    by destruct (to_numeric_cell str_to_float cell).
Qed.

(** C6. On parseable dates and thirteen metric columns the Sleep cleaner
    returns a frame of thirteen columns under the canonical labels, each
    computed from the source column at its position alone: a present value
    is kept; a missing value is replaced by the arithmetic mean of the
    present values of that column; a column with no present value is left
    as it is. *)
Theorem sleep_filled_with_column_mean (Sleep : RawFrame Q) (dates : list date) :
  to_datetime parse_date (raw_date Sleep) = Ok dates →
  length (raw_cols Sleep) = 13%nat →
  ∃ cleaned,
    clean_sleep parse_date Sleep = Ok cleaned
    ∧ index cleaned = dates
    ∧ (columns cleaned).*1 = sleep_names
    ∧ ∀ (k : nat) label0 s0, raw_cols Sleep !! k = Some (label0, s0) →
        ∃ label s,
          columns cleaned !! k = Some (label, s)
          ∧ length s = length s0
          ∧ (∀ (i : nat) x, s0 !! i = Some (Some x) → s !! i = Some (Some x))
          ∧ (¬ all_missing s0 →
               ∀ i : nat, s0 !! i = Some None →
                 ∃ m, s !! i = Some (Some m)
                      ∧ (m == arithmetic_mean (dropna s0))%Q)
          ∧ (all_missing s0 → s = s0).
Proof.
  intros Hd Hlen. eexists. split; [apply clean_sleep_Ok; by exists dates|].
  cbn [columns index]. split; [done|]. split.
  { apply fst_zip. by rewrite !length_fmap, Hlen. }
  intros k label0 s0 Hk.
  destruct (lookup_lt_is_Some_2 sleep_names k) as [label Hlabel].
  { apply lookup_lt_Some in Hk. rewrite Hlen in Hk. done. }
  exists label, (fillna s0 (series_mean s0)). split; [|split; [|split; [|split]]].
  - rewrite lookup_zip_with, Hlabel, !list_lookup_fmap, Hk. done.
  - apply length_fillna.
  - intros i x Hi. by rewrite fillna_lookup, Hi.
  - intros (m & Hm & Hmean)%series_mean_Some i Hi.
    exists m. by rewrite fillna_lookup, Hi, Hm.
  - intros Hall%series_mean_None. by rewrite Hall.
Qed.

End CleanerTheorems.

Section Idempotence.

(** C9. Filling a frame with its column means, recomputing the means on
    the filled frame and filling again gives the filled frame; so does
    filling one series with its mean twice. *)
Theorem mean_imputation_idempotent :
  (∀ df : DataFrame Q,
      let filled := frame_fillna df (frame_mean df) in
      frame_fillna filled (frame_mean filled) = filled)
  ∧ (∀ s : Series,
      let filled := fillna s (series_mean s) in
      fillna filled (series_mean filled) = filled).
Proof.
  split; [|apply fill_mean_idempotent].
  intros [ix cols]. unfold frame_fillna, frame_mean. cbn [columns index].
  f_equal. rewrite <- list_fmap_compose.
  apply list_fmap_ext. intros _ [n s] _. cbn. f_equal.
  rewrite !(assoc_fmap (fun _ s => series_mean s)).
  rewrite (assoc_fmap (fun n s => fillna s _)).
  rewrite !(assoc_fmap (fun _ s => series_mean s)).
  destruct (assoc n cols) as [s0|]; cbn; [|done].
  destruct (series_mean s0) as [m|] eqn:Hm.
  - apply fillna_of_complete, fillna_complete.
  - cbn. by rewrite Hm.
Qed.

End Idempotence.


Section MergeFacts.

Lemma matches_not_elem (d : date) (r : list date) (j : nat) :
  d ∉ r → matches d r j = [].
Proof.
  revert j. induction r as [|d' r IH]; intros j Hd; [done|].
  apply not_elem_of_cons in Hd as [Hne Hd]. cbn [matches].
  rewrite decide_False by done. by apply IH.
Qed.

Lemma matches_elem (d : date) (r : list date) (j : nat) :
  matches d r j ≠ [] → d ∈ r.
Proof.
  intros Hm. destruct (decide (d ∈ r)) as [|Hd]; [done|].
  by rewrite matches_not_elem in Hm.
Qed.

(** In a right table with unique dates a date matches one row or none. *)
Lemma matches_length_NoDup (d : date) (r : list date) (j : nat) :
  NoDup r →
  length (matches d r j) = if decide (d ∈ r) then 1%nat else 0%nat.
Proof.
  intros Hnd. revert j. induction Hnd as [|d' r Hd' Hnd IH]; intros j; [done|].
  cbn [matches]. destruct (decide (d = d')) as [->|Hne].
  - rewrite matches_not_elem by done.
    rewrite decide_True; [done|]. apply elem_of_cons. by left.
  - rewrite IH. destruct (decide (d ∈ r)) as [Hin|Hin].
    + rewrite decide_True; [done|]. apply elem_of_cons. by right.
    + rewrite decide_False; [done|]. by apply not_elem_of_cons.
Qed.

(** The left keys of the joined rows: every left date, once per matching
    right row. *)
Lemma inner_indexers_keys (pre l r : list date) :
  omap (fun i => (pre ++ l) !! i) (fst <$> inner_indexers l r (length pre))
  = l ≫= (fun d => replicate (length (matches d r 0)) d).
Proof.
  revert pre. induction l as [|d l IH]; intros pre; [done|].
  cbn [inner_indexers]. rewrite fmap_app, omap_app, bind_cons. f_equal.
  - rewrite <- list_fmap_compose.
    induction (matches d r 0) as [|m ms IHm]; [done|].
    rewrite fmap_cons. cbn [omap list_omap compose fst length replicate].
    rewrite list_lookup_middle by done. by rewrite <- IHm.
  - specialize (IH (pre ++ [d])).
    rewrite length_app, Nat.add_1_r, <- app_assoc in IH. apply IH.
Qed.

Lemma merge_index (Sleep : DataFrame Q) (TrRec : TrRecFrame) :
  str_index (merge Sleep TrRec)
  = index Sleep ≫=
      (fun d => replicate (length (matches d (tr_index TrRec) 0)) d).
Proof. unfold merge. cbn [str_index]. apply (inner_indexers_keys []). Qed.

(** No date of the merged frame is missing from either source. *)
Lemma merge_index_sound (Sleep : DataFrame Q) (TrRec : TrRecFrame) (d : date) :
  d ∈ str_index (merge Sleep TrRec) → d ∈ index Sleep ∧ d ∈ tr_index TrRec.
Proof.
  rewrite merge_index, list_elem_of_bind.
  intros (d' & [-> Hn]%elem_of_replicate & Hin). split; [done|].
  apply (matches_elem _ _ 0%nat). intros Hnil. by rewrite Hnil in Hn.
Qed.

(** With unique right dates the merged index is the left index restricted
    to the dates of the right one. *)
Lemma merge_index_NoDup (Sleep : DataFrame Q) (TrRec : TrRecFrame) :
  NoDup (tr_index TrRec) →
  str_index (merge Sleep TrRec)
  = filter (fun d => d ∈ tr_index TrRec) (index Sleep).
Proof.
  intros Hnd. rewrite merge_index.
  induction (index Sleep) as [|d l IH]; [done|].
  rewrite bind_cons, IH, matches_length_NoDup, filter_cons by done.
  by destruct (decide (d ∈ tr_index TrRec)).
Qed.

Lemma remove_dups_NoDup (l : list date) : NoDup l → remove_dups l = l.
Proof.
  induction 1 as [|d l Hd Hnd IH]; [done|]. cbn [remove_dups].
  destruct (decide_rel elem_of d l); [done|]. by rewrite IH.
Qed.

Lemma filter_eq_NoDup (d : date) (l : list date) :
  NoDup l → d ∈ l → length (filter (fun d' => d' = d) l) = 1%nat.
Proof.
  induction 1 as [|d' l Hd' Hnd IH]; [by intros ?%elem_of_nil|].
  rewrite elem_of_cons, filter_cons. intros [->|Hin].
  - rewrite decide_True by done. cbn [length]. f_equal.
    match goal with |- length ?fl = _ => destruct fl as [|x xs] eqn:Hf end;
      [done|].
    assert (Hx : x ∈ x :: xs) by left.
    rewrite <- Hf in Hx. by apply list_elem_of_filter in Hx as [-> Hx].
  - rewrite decide_False; [by apply IH|]. by intros ->.
Qed.

End MergeFacts.

Section EndToEnd.

Variable parse_date : string → option date.
Variable str_to_float : string → option Q.

Lemma assoc_zip_lookup {V : Type} (names : list string) (vals : list V)
    (k : nat) n v :
  NoDup names → names !! k = Some n → vals !! k = Some v →
  assoc n (zip names vals) = Some v.
Proof.
  revert vals k. induction names as [|n' names IH]; intros [|v' vals] [|k] Hnd;
    try done; apply NoDup_cons in Hnd as [Hn' Hnd]; cbn.
  - intros [= ->] [= ->]. by rewrite decide_True.
  - intros Hn Hv. rewrite decide_False; [by eapply IH|].
    intros ->. apply Hn'. by eapply list_elem_of_lookup_2.
Qed.

(** C5. Sleep rows for the dates D1, D2, D3 with the Deep value of D2
    missing, Training/Recovery rows for D2, D3, D4 with the
    training-stress-score of D3 missing and its exertion-rating equal to 4:
    the pipeline returns a table whose dates are D2 and D3, whose Deep value
    at D2 is the mean of the Deep values of D1 and D3, and whose
    training-stress-score at D3 is 53. *)
Theorem end_to_end_scenario
    (Sleep : RawFrame Q) (TrRec : RawFrame obj) (D1 D2 D3 D4 : date)
    (label : string) (a b : Q)
    n1 c1 n2 r2 r3 r4 n3 t2 t3 t4 n4 c4 (r : Q) :
  NoDup [D1; D2; D3; D4] →
  parse_date <$> raw_date Sleep = [Some D1; Some D2; Some D3] →
  length (raw_cols Sleep) = 13%nat →
  raw_cols Sleep !! 4%nat = Some (label, [Some a; None; Some b]) →
  parse_date <$> raw_date TrRec = [Some D2; Some D3; Some D4] →
  raw_cols TrRec = [(n1, c1); (n2, [r2; r3; r4]); (n3, [t2; t3; t4]); (n4, c4)] →
  to_numeric_cell str_to_float t3 = None →
  to_numeric_cell str_to_float r3 = Some r →
  (r == 4)%Q →
  ∃ STR deep m,
    pipeline parse_date str_to_float Sleep TrRec = Ok STR
    ∧ str_index STR = [D2; D3]
    ∧ assoc "Deep" (str_sleep STR) = Some deep
    ∧ deep !! 0%nat = Some (Some m)
    ∧ (m == arithmetic_mean [a; b])%Q
    ∧ str_TSS STR !! 1%nat = Some (Some 53%Q).
Proof.
  intros Hnd HdS HlenS Hdeep HdT HcT Ht3 Hr3 Hr.
  rewrite !NoDup_cons, !not_elem_of_cons in Hnd.
  destruct Hnd as ((H12 & H13 & H14 & _) & (H23 & H24 & _) & (H34 & _) & _).
  assert (HS : clean_sleep parse_date Sleep
     = Ok (mkFrame [D1; D2; D3]
             (zip sleep_names
                ((fun s => fillna s (series_mean s)) <$> (raw_cols Sleep).*2)))).
  { apply clean_sleep_Ok. exists [D1; D2; D3].
    split; [by apply to_datetime_Ok|done]. }
  assert (HT : clean_trrec parse_date str_to_float TrRec
     = Ok (mkTrRec [D2; D3; D4]
             (fillna (to_numeric str_to_float c1)
                     (series_mean (to_numeric str_to_float c1)))
             (fillna (to_numeric str_to_float [r2; r3; r4]) (Some 0%Q))
             (np_where (isnull (to_numeric str_to_float [t2; t3; t4]))
                (select_row tss_conditions tss_values
                   <$> fillna (to_numeric str_to_float [r2; r3; r4]) (Some 0%Q))
                (to_numeric str_to_float [t2; t3; t4]))
             c4)).
  { apply clean_trrec_Ok.
    exists [D2; D3; D4], n1, c1, n2, [r2; r3; r4], n3, [t2; t3; t4], n4, c4.
    split; [by apply to_datetime_Ok|done]. }
  match type of HT with _ = Ok ?f => set (T := f) in * end.
  assert (Hix : inner_indexers [D1; D2; D3] [D2; D3; D4] 0
                = [(1, 0); (2, 1)]%nat).
  { cbn [inner_indexers matches].
    rewrite !(decide_False (P := D1 = _)) by done.
    rewrite (decide_True (P := D2 = D2)) by done.
    rewrite !(decide_False (P := D2 = _)) by done.
    rewrite (decide_True (P := D3 = D3)) by done.
    rewrite !(decide_False (P := D3 = _)) by congruence.
    done. }
  destruct (series_mean_Some [Some a; None; Some b]) as (m & Hm & Hmean).
  { by intros [[=] _]%Forall_cons_1. }
  exists (merge (mkFrame [D1; D2; D3]
             (zip sleep_names
                ((fun s => fillna s (series_mean s)) <$> (raw_cols Sleep).*2))) T),
    (take [1; 2]%nat (fillna [Some a; None; Some b]
                        (series_mean [Some a; None; Some b]))), m.
  split; [|split; [|split; [|split; [|split]]]].
  - unfold pipeline. rewrite HS. cbn [mbind result_bind]. by rewrite HT.
  - unfold merge. cbn [str_index index tr_index T]. by rewrite Hix.
  - unfold merge. cbn [str_sleep index tr_index T columns]. rewrite Hix.
    rewrite (assoc_fmap (fun _ s => take _ s)).
    erewrite (assoc_zip_lookup sleep_names _ 4); [done|apply NoDup_sleep_names|done|].
    by rewrite !list_lookup_fmap, Hdeep.
  - rewrite Hm. done.
  - done.
  - unfold merge. cbn [str_TSS index].
    change (tr_index T) with [D2; D3; D4]. rewrite Hix.
    cbn [fmap list_fmap snd take lookup list_lookup].
    rewrite (TSS_row parse_date str_to_float TrRec T n3 [t2; t3; t4] 1 t3
               (Some r)); [|done|by rewrite HcT|done|].
    + rewrite Ht3. cbn [mjoin option_join]. do 2 f_equal.
      rewrite tss_values_spec.
      apply (select_row_first_match _ _ r _ tss_conditions_spec).
      by apply first_match_samples.
    + cbn [T RPE]. rewrite fillna_lookup. unfold to_numeric.
      rewrite list_lookup_fmap. cbn [lookup list_lookup fmap option_fmap option_map].
      by rewrite Hr3.
Qed.

End EndToEnd.

Section CleanedTables.

Variable parse_date : string → option date.
Variable str_to_float : string → option Q.

(** C1 (amended). After cleaning, every Sleep metric column is complete
    unless no value of the source column was present, in which case it is
    left as it is; recovery-score is complete unless no value of the column
    coerced to a number; exertion-rating and training-stress-score are
    complete; alcohol-count is the source column, untouched. *)
Theorem cleaned_columns_complete
    (Sleep : RawFrame Q) (TrRec : RawFrame obj)
    (cleaned : DataFrame Q) (f : TrRecFrame) :
  clean_sleep parse_date Sleep = Ok cleaned →
  clean_trrec parse_date str_to_float TrRec = Ok f →
  length (columns cleaned) = length (raw_cols Sleep)
  ∧ (∀ (k : nat) label0 s0, raw_cols Sleep !! k = Some (label0, s0) →
       ∃ label s, columns cleaned !! k = Some (label, s)
                  ∧ (complete s ∨ (all_missing s0 ∧ s = s0)))
  ∧ ∃ n1 c1 n4 c4,
      raw_cols TrRec !! 0%nat = Some (n1, c1)
      ∧ raw_cols TrRec !! 3%nat = Some (n4, c4)
      ∧ (complete (RecPts f)
         ∨ (all_missing (to_numeric str_to_float c1)
            ∧ RecPts f = to_numeric str_to_float c1))
      ∧ complete (RPE f)
      ∧ complete (TSS f)
      ∧ Beers f = c4.
Proof.
  intros (dates & Hd & Hlen & ->)%clean_sleep_Ok
         (dT & n1 & c1 & n2 & c2 & n3 & c3 & n4 & c4 & HdT & HcT & ->)%clean_trrec_Ok.
  cbn [columns RecPts RPE TSS Beers]. split; [|split].
  - by rewrite length_zip_with, !length_fmap, Hlen.
  - intros k label0 s0 Hk.
    destruct (lookup_lt_is_Some_2 sleep_names k) as [label Hlabel].
    { apply lookup_lt_Some in Hk. rewrite Hlen in Hk. done. }
    exists label, (fillna s0 (series_mean s0)). split.
    + rewrite lookup_zip_with, Hlabel, !list_lookup_fmap, Hk. done.
    + destruct (series_mean_complete s0) as [Hc|Hall]; [by left|right].
      split; [done|]. apply series_mean_None in Hall as Hnone.
      by rewrite Hnone.
  - exists n1, c1, n4, c4. rewrite HcT. repeat split; try done.
    + destruct (series_mean_complete (to_numeric str_to_float c1))
        as [Hc|Hall]; [by left|right].
      split; [done|]. apply series_mean_None in Hall as Hnone.
      by rewrite Hnone.
    + apply fillna_complete.
    + apply np_where_isnull_complete.
Qed.

(** C2 (amended). Setting the date as the row key checks nothing: whenever
    the dates of both source tables parse and the metric columns are there,
    both cleaners return, the index of each cleaned table is the list of
    parsed dates of its source, repeated dates included, and the run goes
    on to the join. *)
Theorem set_index_keeps_repeated_dates
    (Sleep : RawFrame Q) (TrRec : RawFrame obj) (dS dT : list date) :
  to_datetime parse_date (raw_date Sleep) = Ok dS →
  length (raw_cols Sleep) = 13%nat →
  to_datetime parse_date (raw_date TrRec) = Ok dT →
  length (raw_cols TrRec) = 4%nat →
  ∃ cleaned f,
    clean_sleep parse_date Sleep = Ok cleaned
    ∧ index cleaned = dS
    ∧ clean_trrec parse_date str_to_float TrRec = Ok f
    ∧ tr_index f = dT
    ∧ pipeline parse_date str_to_float Sleep TrRec = Ok (merge cleaned f).
Proof.
  intros HdS HlS HdT HlT.
  destruct (raw_cols TrRec)
    as [|[n1 c1] [|[n2 c2] [|[n3 c3] [|[n4 c4] [|? ?]]]]] eqn:HcT; try done.
  assert (HS : ∃ cleaned, clean_sleep parse_date Sleep = Ok cleaned
                          ∧ index cleaned = dS).
  { eexists. split; [apply clean_sleep_Ok; by exists dS|done]. }
  assert (HT : ∃ f, clean_trrec parse_date str_to_float TrRec = Ok f
                    ∧ tr_index f = dT).
  { eexists. split;
      [apply clean_trrec_Ok; by exists dT, n1, c1, n2, c2, n3, c3, n4, c4
      |reflexivity]. }
  destruct HS as (cleaned & HS & HiS), HT as (f & HT & HiT).
  exists cleaned, f. repeat split; try done.
  unfold pipeline. rewrite HS. cbn [mbind result_bind]. by rewrite HT.
Qed.

End CleanedTables.

(** * The theorems at the sample tables *)

(** C1, as stated, fails on the alcohol-count column: the sample has a
    present and a missing alcohol cell, and the cleaned column still has
    the missing one. *)
Lemma alcohol_count_left_missing :
  ∃ f n4 c4,
    clean_trrec iso_date decimal_float trrec_sample = Ok f
    ∧ raw_cols trrec_sample !! 3%nat = Some (n4, c4)
    ∧ Beers f = [None; Some (Num 1); Some (Num 2)]
    ∧ ¬ complete (Beers f)
    ∧ ¬ all_missing c4.
Proof.
  eexists _, _, _. split; [vm_compute; reflexivity|].
  split; [reflexivity|]. split; [reflexivity|].
  cbn [Beers]. split.
  - by intros [? _]%Forall_cons_1.
  - by intros [_ [[=] _]%Forall_cons_1]%Forall_cons_1.
Qed.

Lemma cleaned_columns_complete_witness :
  ∃ cleaned f,
    clean_sleep iso_date sleep_sample = Ok cleaned
    ∧ clean_trrec iso_date decimal_float trrec_sample = Ok f
    ∧ complete (RPE f) ∧ complete (TSS f).
Proof.
  destruct (clean_sleep iso_date sleep_sample) as [cleaned|e] eqn:HS;
    [|by vm_compute in HS].
  destruct (clean_trrec iso_date decimal_float trrec_sample) as [f|e] eqn:HT;
    [|by vm_compute in HT].
  exists cleaned, f. split; [done|]. split; [done|].
  destruct (cleaned_columns_complete iso_date decimal_float
              sleep_sample trrec_sample cleaned f HS HT)
    as (_ & _ & _ & _ & _ & _ & _ & _ & _ & HRPE & HTSS & _).
  exact (conj HRPE HTSS).
Defined.

(** C2, as stated, fails: two rows of the sample share a date, the date is
    set as the row key without any failure, and the join runs and pairs the
    night of that date with both rows. *)
Lemma repeated_date_is_accepted :
  ∃ f STR,
    to_datetime iso_date (raw_date trrec_same_day)
      = Ok [Date 2019 6 2; Date 2019 6 2]
    ∧ clean_trrec iso_date decimal_float trrec_same_day = Ok f
    ∧ tr_index f = [Date 2019 6 2; Date 2019 6 2]
    ∧ pipeline iso_date decimal_float sleep_sample trrec_same_day = Ok STR
    ∧ str_index STR = [Date 2019 6 2; Date 2019 6 2].
Proof.
  eexists _, _. split; [vm_compute; reflexivity|].
  split; [vm_compute; reflexivity|].
  split; [reflexivity|]. split; [vm_compute; reflexivity|]. reflexivity.
Qed.

Lemma set_index_keeps_repeated_dates_witness :
  ∃ cleaned f,
    clean_trrec iso_date decimal_float trrec_same_day = Ok f
    ∧ tr_index f = [Date 2019 6 2; Date 2019 6 2]
    ∧ pipeline iso_date decimal_float sleep_sample trrec_same_day
      = Ok (merge cleaned f).
Proof.
  destruct (set_index_keeps_repeated_dates iso_date decimal_float
              sleep_sample trrec_same_day
              [Date 2019 6 1; Date 2019 6 2; Date 2019 6 3]
              [Date 2019 6 2; Date 2019 6 2])
    as (cleaned & f & _ & _ & HT & Hix & Hp); [by vm_compute..|].
  by exists cleaned, f.
Defined.

Lemma tss_imputed_by_first_match_witness :
  ∃ f, clean_trrec iso_date decimal_float trrec_sample = Ok f
       ∧ RPE f !! 1%nat = Some (Some 4%Q)
       ∧ TSS f !! 1%nat = Some (Some 53%Q).
Proof.
  destruct (clean_trrec iso_date decimal_float trrec_sample) as [f|e] eqn:HT;
    [|by vm_compute in HT].
  pose proof HT as Hf. vm_compute in Hf. injection Hf as <-.
  eexists. split; [reflexivity|]. split; [reflexivity|].
  refine (proj1 (proj2 (proj2 (proj2
    (tss_imputed_by_first_match iso_date decimal_float trrec_sample _
       "trainingTSS" [Some (Num 100); None; None] 1 None 4%Q
       HT eq_refl eq_refl eq_refl eq_refl)))) _).
  reflexivity.
Defined.

Lemma tss_present_unchanged_witness :
  ∃ f, clean_trrec iso_date decimal_float trrec_sample = Ok f
       ∧ TSS f !! 0%nat = Some (Some 100%Q).
Proof.
  destruct (clean_trrec iso_date decimal_float trrec_sample) as [f|e] eqn:HT;
    [|by vm_compute in HT].
  pose proof HT as Hf. vm_compute in Hf. injection Hf as <-.
  eexists. split; [reflexivity|].
  exact (tss_present_unchanged iso_date decimal_float trrec_sample _
           "trainingTSS" [Some (Num 100); None; None] 0 (Some (Num 100))
           100%Q (Some 2%Q) HT eq_refl eq_refl eq_refl eq_refl).
Defined.

Lemma tss_fallback_zero_witness :
  ∃ f, clean_trrec iso_date decimal_float trrec_off_table = Ok f
       ∧ RPE f !! 1%nat = Some (Some 3.05%Q)
       ∧ TSS f !! 1%nat = Some (Some 0%Q).
Proof.
  destruct (clean_trrec iso_date decimal_float trrec_off_table) as [f|e] eqn:HT;
    [|by vm_compute in HT].
  pose proof HT as Hf. vm_compute in Hf. injection Hf as <-.
  eexists. split; [reflexivity|]. split; [reflexivity|].
  refine (proj1 (proj2 (proj2
    (tss_fallback_zero iso_date decimal_float trrec_off_table _
       "trainingTSS" [None; None; None] 1 None 3.05%Q
       HT eq_refl eq_refl eq_refl eq_refl))) _).
  split; reflexivity.
Defined.

Lemma trrec_coercion_and_fill_witness :
  ∃ f, clean_trrec iso_date decimal_float trrec_sample = Ok f
       ∧ RecPts f !! 1%nat = Some (Some 7.5%Q)
       ∧ RPE f !! 2%nat = Some (Some 0%Q).
Proof.
  destruct (trrec_coercion_and_fill iso_date decimal_float trrec_sample
              [Date 2019 6 2; Date 2019 6 3; Date 2019 6 4]
              "HRV4T_Recovery_Points" [Some (Str "7.5"); Some (Str "n/a"); None]
              "trainingRPE" [Some (Num 2); Some (Num 4); None]
              "trainingTSS" [Some (Num 100); None; None]
              "alcohol" [None; Some (Num 1); Some (Num 2)]
              eq_refl eq_refl)
    as (f & HT & _ & HRec & _ & HRPE).
  exists f. split; [done|]. split.
  - exact (HRec 1%nat (Some (Str "n/a")) eq_refl).
  - exact (HRPE 2%nat None eq_refl).
Defined.

Lemma sleep_filled_with_column_mean_witness :
  ∃ cleaned label s,
    clean_sleep iso_date sleep_sample = Ok cleaned
    ∧ (columns cleaned).*1 = sleep_names
    ∧ columns cleaned !! 4%nat = Some (label, s)
    ∧ s !! 2%nat = Some (Some 2.5%Q).
Proof.
  destruct (sleep_filled_with_column_mean iso_date sleep_sample
              [Date 2019 6 1; Date 2019 6 2; Date 2019 6 3] eq_refl eq_refl)
    as (cleaned & HS & _ & Hnames & Hcols).
  destruct (Hcols 4%nat "Deep Sleep Time" [Some 1.5%Q; None; Some 2.5%Q] eq_refl)
    as (label & s & Hk & _ & Hkeep & _).
  exists cleaned, label, s. split; [done|]. split; [done|]. split; [done|].
  exact (Hkeep 2%nat 2.5%Q eq_refl).
Defined.

Lemma end_to_end_scenario_witness :
  ∃ STR deep m,
    pipeline iso_date decimal_float sleep_sample trrec_sample = Ok STR
    ∧ str_index STR = [Date 2019 6 2; Date 2019 6 3]
    ∧ assoc "Deep" (str_sleep STR) = Some deep
    ∧ deep !! 0%nat = Some (Some m)
    ∧ (m == arithmetic_mean [1.5; 2.5])%Q
    ∧ str_TSS STR !! 1%nat = Some (Some 53%Q).
Proof.
  apply (end_to_end_scenario iso_date decimal_float sleep_sample trrec_sample
           (Date 2019 6 1) (Date 2019 6 2) (Date 2019 6 3) (Date 2019 6 4)
           "Deep Sleep Time" 1.5%Q 2.5%Q
           "HRV4T_Recovery_Points" [Some (Str "7.5"); Some (Str "n/a"); None]
           "trainingRPE" (Some (Num 2)) (Some (Num 4)) None
           "trainingTSS" (Some (Num 100)) None None
           "alcohol" [None; Some (Num 1); Some (Num 2)] 4%Q);
    try reflexivity.
  apply (bool_decide_unpack _). vm_compute. exact I.
Defined.

(** * Further properties of the code *)

Section Failures.

Variable parse_date : string → option date.
Variable str_to_float : string → option Q.

(** X2. The Sleep cleaner fails in two ways only: on a date column that
    does not parse, with the error of [pd.to_datetime], and otherwise on a
    number of metric columns other than thirteen, with the length mismatch
    of the relabelling.  The date error comes first. *)
Theorem clean_sleep_raises (Sleep : RawFrame Q) (e : exn) :
  clean_sleep parse_date Sleep = Raise e ↔
  to_datetime parse_date (raw_date Sleep) = Raise e
  ∨ (∃ dates, to_datetime parse_date (raw_date Sleep) = Ok dates)
    ∧ length (raw_cols Sleep) ≠ 13%nat
    ∧ e = LengthMismatch (length (raw_cols Sleep)) 13.
Proof.
  unfold clean_sleep.
  destruct (to_datetime parse_date (raw_date Sleep)) as [dates|e'];
    cbn [mbind result_bind].
  - unfold set_columns, set_index; cbn [columns index].
    case_decide as Hlen; cbn [mbind result_bind].
    + split; [done|]. intros [[=]|(_ & Hne & _)]. by rewrite <- Hlen in Hne.
    + split.
      * intros [= <-]. right. split; [by exists dates|]. split; [|done].
        intros Hl. by rewrite Hl in Hlen.
      * by intros [[=]|(_ & _ & ->)].
  - split; [intros [= ->]; by left|]. by intros [[= ->]|([? [=]] & _)].
Qed.

(** X3. The Training/Recovery cleaner fails in two ways only: on a date
    column that does not parse, and otherwise on a number of metric columns
    other than four.  No column lookup of the cell fails (no [KeyError]) and
    no cell content makes it fail. *)
Theorem clean_trrec_raises (TrRec : RawFrame obj) (e : exn) :
  clean_trrec parse_date str_to_float TrRec = Raise e ↔
  to_datetime parse_date (raw_date TrRec) = Raise e
  ∨ (∃ dates, to_datetime parse_date (raw_date TrRec) = Ok dates)
    ∧ length (raw_cols TrRec) ≠ 4%nat
    ∧ e = LengthMismatch (length (raw_cols TrRec)) 4.
Proof.
  destruct (to_datetime parse_date (raw_date TrRec)) as [dates|e'] eqn:Hd.
  - destruct (decide (length (raw_cols TrRec) = 4%nat)) as [Hlen|Hlen].
    + destruct (raw_cols TrRec)
        as [|[n1 c1] [|[n2 c2] [|[n3 c3] [|[n4 c4] [|? ?]]]]] eqn:Hc; try done.
      assert (∃ f, clean_trrec parse_date str_to_float TrRec = Ok f)
        as [f ->].
      { eexists. apply clean_trrec_Ok.
        by exists dates, n1, c1, n2, c2, n3, c3, n4, c4. }
      split; [done|]. intros [[=]|(_ & Hne & _)]. done.
    + unfold clean_trrec. rewrite Hd. cbn [mbind result_bind].
      unfold set_columns, set_index; cbn [columns index].
      rewrite decide_False by (intros Hl; by rewrite <- Hl in Hlen).
      cbn [mbind result_bind]. split.
      * intros [= <-]. right. split; [by exists dates|done].
      * by intros [[=]|(_ & _ & ->)].
  - unfold clean_trrec. rewrite Hd. cbn [mbind result_bind].
    split; [intros [= ->]; by left|]. by intros [[= ->]|([? [=]] & _)].
Qed.

(** X4. With numeric Sleep columns, the run returns a table exactly when
    both date columns parse and the tables have thirteen and four metric
    columns: no metric cell can make it fail.  A failure of the Sleep cleaner is the failure of the run,
    whatever the Training/Recovery table is. *)
Theorem pipeline_returns_iff (Sleep : RawFrame Q) (TrRec : RawFrame obj) :
  ((∃ STR, pipeline parse_date str_to_float Sleep TrRec = Ok STR) ↔
   (∃ dS, to_datetime parse_date (raw_date Sleep) = Ok dS)
   ∧ length (raw_cols Sleep) = 13%nat
   ∧ (∃ dT, to_datetime parse_date (raw_date TrRec) = Ok dT)
   ∧ length (raw_cols TrRec) = 4%nat)
  ∧ (∀ e, clean_sleep parse_date Sleep = Raise e →
          pipeline parse_date str_to_float Sleep TrRec = Raise e).
Proof.
  split.
  - unfold pipeline. split.
    + destruct (clean_sleep parse_date Sleep) as [cleaned|e] eqn:HS;
        cbn [mbind result_bind]; [|by intros [? [=]]].
      destruct (clean_trrec parse_date str_to_float TrRec) as [f|e] eqn:HT;
        cbn [mbind result_bind]; [|by intros [? [=]]].
      intros _.
      apply clean_sleep_Ok in HS as (dS & HdS & HlS & _).
      apply clean_trrec_Ok in HT
        as (dT & n1 & c1 & n2 & c2 & n3 & c3 & n4 & c4 & HdT & HcT & _).
      repeat split; [by exists dS|done|by exists dT|by rewrite HcT].
    + intros ([dS HdS] & HlS & [dT HdT] & HlT).
      destruct (raw_cols TrRec)
        as [|[n1 c1] [|[n2 c2] [|[n3 c3] [|[n4 c4] [|? ?]]]]] eqn:HcT; try done.
      assert (∃ cleaned, clean_sleep parse_date Sleep = Ok cleaned) as [? ->].
      { eexists. apply clean_sleep_Ok. by exists dS. }
      assert (∃ f, clean_trrec parse_date str_to_float TrRec = Ok f) as [? ->].
      { eexists. apply clean_trrec_Ok.
        by exists dT, n1, c1, n2, c2, n3, c3, n4, c4. }
      by eexists.
  - intros e HS. unfold pipeline. by rewrite HS.
Qed.

(** X5. The relabelling is by position: the labels of the source columns
    play no part.  Two tables with the same dates and the same columns in
    the same order are cleaned to the same result, or fail alike, whatever
    their columns are called. *)
Theorem cleaners_ignore_source_labels :
  (∀ S1 S2 : RawFrame Q,
      raw_date S1 = raw_date S2 → (raw_cols S1).*2 = (raw_cols S2).*2 →
      clean_sleep parse_date S1 = clean_sleep parse_date S2)
  ∧ (∀ T1 T2 : RawFrame obj,
      raw_date T1 = raw_date T2 → (raw_cols T1).*2 = (raw_cols T2).*2 →
      clean_trrec parse_date str_to_float T1
      = clean_trrec parse_date str_to_float T2).
Proof.
  split.
  - intros S1 S2 Hd Hc. unfold clean_sleep. rewrite Hd.
    destruct (to_datetime parse_date (raw_date S2)) as [dates|e];
      cbn [mbind result_bind]; [|done].
    unfold set_columns, set_index; cbn [columns index].
    rewrite <- !(length_fmap snd (raw_cols _)), Hc. done.
  - intros T1 T2 Hd Hc. unfold clean_trrec. rewrite Hd.
    destruct (to_datetime parse_date (raw_date T2)) as [dates|e];
      cbn [mbind result_bind]; [|done].
    unfold set_columns, set_index; cbn [columns index].
    rewrite <- !(length_fmap snd (raw_cols _)), Hc. done.
Qed.

Lemma length_np_where (cond : list bool) (x : list Q) (y : Series) :
  length cond = length y → length x = length y →
  length (np_where cond x y) = length y.
Proof.
  revert x y. induction cond as [|c cond IH]; intros [|a x] [|b y]; try done.
  cbn. intros [=Hc] [=Hx]. by rewrite IH.
Qed.

(** The cleaners keep the shape: the index of a cleaned table is the list
    of the parsed dates in source order, and when every source column has
    one cell per row, so has every cleaned column. *)
Lemma cleaners_keep_shape
    (Sleep : RawFrame Q) (TrRec : RawFrame obj)
    (cleaned : DataFrame Q) (f : TrRecFrame) :
  clean_sleep parse_date Sleep = Ok cleaned →
  clean_trrec parse_date str_to_float TrRec = Ok f →
  parse_date <$> raw_date Sleep = Some <$> index cleaned
  ∧ parse_date <$> raw_date TrRec = Some <$> tr_index f
  ∧ (rectangular_raw Sleep → rectangular cleaned)
  ∧ (rectangular_raw TrRec → rectangular_trrec f).
Proof.
  intros (dS & HdS & HlS & ->)%clean_sleep_Ok
         (dT & n1 & c1 & n2 & c2 & n3 & c3 & n4 & c4 & HdT & HcT & ->)%clean_trrec_Ok.
  cbn [index tr_index]. split; [by apply to_datetime_Ok|].
  split; [by apply to_datetime_Ok|].
  apply to_datetime_Ok in HdS as HlenS. apply (f_equal length) in HlenS.
  apply to_datetime_Ok in HdT as HlenT. apply (f_equal length) in HlenT.
  rewrite !length_fmap in HlenS, HlenT. split.
  - unfold rectangular_raw, rectangular. cbn [columns index].
    rewrite !Forall_lookup. intros Hraw k [label s].
    rewrite lookup_zip_with, !list_lookup_fmap.
    destruct (sleep_names !! k) as [n|]; [|done].
    destruct (raw_cols Sleep !! k) as [[n0 s0]|] eqn:Hk; [|done].
    intros [= <- <-]. cbn [snd]. rewrite length_fillna, <- HlenS.
    apply (Hraw k (n0, s0) Hk).
  - unfold rectangular_raw, rectangular_trrec.
    cbn [RecPts RPE TSS Beers tr_index]. rewrite HcT, <- HlenT.
    rewrite !Forall_cons. cbn [snd]. intros (H1 & H2 & H3 & H4 & _).
    rewrite !length_fillna. unfold to_numeric. rewrite !length_fmap.
    repeat split; try done.
    rewrite length_np_where; unfold isnull;
      rewrite ?length_fmap, ?length_fillna, ?length_fmap; congruence.
Qed.

End Failures.

Section MergeRows.

Lemma elem_of_matches (d : date) (r : list date) (b j : nat) :
  j ∈ matches d r b ↔ ∃ j', j = (b + j')%nat ∧ r !! j' = Some d.
Proof.
  revert b. induction r as [|d' r IH]; intros b; cbn [matches].
  - split; [by intros ?%elem_of_nil|]. by intros (? & _ & ?).
  - assert (Htail : j ∈ matches d r (S b)
                    ↔ ∃ j', j = (b + S j')%nat ∧ r !! j' = Some d).
    { rewrite IH. split; intros (j' & -> & Hj'); exists j'; split; (lia || done). }
    destruct (decide (d = d')) as [<-|Hne].
    + rewrite elem_of_cons, Htail. split.
      * intros [->|(j' & -> & Hj')]; [exists 0%nat|exists (S j')];
          split; (lia || done).
      * intros ([|j'] & -> & Hj'); [left; lia|right; by exists j'].
    + rewrite Htail. split.
      * intros (j' & -> & Hj'). by exists (S j').
      * intros ([|j'] & -> & Hj'); [by injection Hj' as ->|by exists j'].
Qed.

(** The indexers of the join are the pairs of a left and a right row with
    the same date. *)
Lemma elem_of_inner_indexers (l r : list date) (a i j : nat) :
  (i, j) ∈ inner_indexers l r a ↔
  ∃ i' d, i = (a + i')%nat ∧ l !! i' = Some d ∧ r !! j = Some d.
Proof.
  revert a. induction l as [|d0 l IH]; intros a; cbn [inner_indexers].
  - split; [by intros ?%elem_of_nil|]. by intros (? & ? & _ & ? & _).
  - rewrite elem_of_app, list_elem_of_fmap, IH. split.
    + intros [(j0 & [= -> ->] & Hj)|(i' & d & -> & Hi & Hj)].
      * apply elem_of_matches in Hj as (j' & -> & Hj).
        exists 0%nat, d0. split; [lia|done].
      * exists (S i'), d. split; [lia|done].
    + intros ([|i'] & d & -> & Hi & Hj).
      * injection Hi as ->. left. exists j. split; [f_equal; lia|].
        apply elem_of_matches. by exists j.
      * right. exists i', d. split; [lia|done].
Qed.

Lemma omap_lookup_is_Some {A B : Type} (g : A → option B) (xs : list A)
    (k : nat) :
  Forall (fun x => is_Some (g x)) xs → omap g xs !! k = xs !! k ≫= g.
Proof.
  intros Hxs. revert k. induction Hxs as [|x xs [y Hy] Hxs IH]; intros k;
    [done|].
  cbn [omap list_omap]. rewrite Hy. destruct k as [|k]; [by cbn; rewrite Hy|].
  apply IH.
Qed.

Lemma length_omap_is_Some {A B : Type} (g : A → option B) (xs : list A) :
  Forall (fun x => is_Some (g x)) xs → length (omap g xs) = length xs.
Proof.
  induction 1 as [|x xs [y Hy] Hxs IH]; [done|].
  cbn [omap list_omap]. rewrite Hy. cbn. by rewrite IH.
Qed.

Lemma inner_indexers_in_range (l r : list date) :
  Forall (fun i => is_Some (l !! i)) (inner_indexers l r 0).*1
  ∧ Forall (fun j => is_Some (r !! j)) (inner_indexers l r 0).*2.
Proof.
  split; apply Forall_fmap, Forall_forall; intros [i j]
    (i' & d & -> & Hi & Hj)%elem_of_inner_indexers; cbn; eauto.
Qed.

(** Row [k] of the merged table, read off the [k]-th pair of indexers. *)
Lemma merge_row (Sleep : DataFrame Q) (TrRec : TrRecFrame) (k i j : nat) :
  inner_indexers (index Sleep) (tr_index TrRec) 0 !! k = Some (i, j) →
  str_index (merge Sleep TrRec) !! k = index Sleep !! i
  ∧ index Sleep !! i = tr_index TrRec !! j
  ∧ is_Some (index Sleep !! i)
  ∧ combined_row Sleep TrRec (merge Sleep TrRec) k i j.
Proof.
  intros Hk.
  assert (Hin : (i, j) ∈ inner_indexers (index Sleep) (tr_index TrRec) 0)
    by by eapply list_elem_of_lookup_2.
  apply elem_of_inner_indexers in Hin as (i' & d & -> & Hi & Hj).
  cbn [plus] in *. unfold merge. cbn [str_index]. split; [|split; [|split]].
  - rewrite omap_lookup_is_Some by apply inner_indexers_in_range.
    by rewrite list_lookup_fmap, Hk.
  - by rewrite Hi, Hj.
  - by rewrite Hi.
  - unfold combined_row.
    cbn [str_sleep str_RecPts str_RPE str_TSS str_Beers]. unfold take.
    split; [|repeat split]; try (intros c Hc;
      by rewrite !list_lookup_fmap, Hk; cbn; rewrite Hc).
    intros p n s Hp. eexists. rewrite list_lookup_fmap, Hp. split; [done|].
    intros c Hc. unfold take. by rewrite !list_lookup_fmap, Hk; cbn; rewrite Hc.
Qed.

(** X6. The rows of the merged table are exactly the pairs of a Sleep row
    and a Training/Recovery row with the same date: every such pair gives a
    merged row under that date carrying the cells of both rows, and every
    merged row comes from such a pair. *)
Theorem merge_rows_are_matching_pairs
    (Sleep : DataFrame Q) (TrRec : TrRecFrame) :
  let STR := merge Sleep TrRec in
  (∀ (i j : nat) d,
      index Sleep !! i = Some d → tr_index TrRec !! j = Some d →
      ∃ k : nat, str_index STR !! k = Some d
                 ∧ combined_row Sleep TrRec STR k i j)
  ∧ (∀ (k : nat) d,
      str_index STR !! k = Some d →
      ∃ i j : nat, index Sleep !! i = Some d ∧ tr_index TrRec !! j = Some d
                   ∧ combined_row Sleep TrRec STR k i j).
Proof.
  intros STR. subst STR. split.
  - intros i j d Hi Hj.
    assert (Hin : (i, j) ∈ inner_indexers (index Sleep) (tr_index TrRec) 0).
    { apply elem_of_inner_indexers. by exists i, d. }
    apply list_elem_of_lookup in Hin as [k Hk]. exists k.
    destruct (merge_row _ _ _ _ _ Hk) as (Hix & _ & _ & Hrow).
    split; [by rewrite Hix|done].
  - intros k d Hk.
    assert (Hlt : (k < length (inner_indexers (index Sleep) (tr_index TrRec) 0))%nat).
    { apply lookup_lt_Some in Hk. unfold merge in Hk. cbn [str_index] in Hk.
      rewrite length_omap_is_Some in Hk by apply inner_indexers_in_range.
      by rewrite length_fmap in Hk. }
    apply lookup_lt_is_Some_2 in Hlt as [[i j] Hij]. exists i, j.
    destruct (merge_row _ _ _ _ _ Hij) as (Hix & Heq & _ & Hrow).
    rewrite Hix in Hk. split; [done|]. split; [|done].
    by rewrite <- Heq.
Qed.

(** The merged table is rectangular, whatever the inputs: each of its
    columns has one cell per merged row. *)
Lemma merge_is_rectangular (Sleep : DataFrame Q) (TrRec : TrRecFrame) :
  rectangular_str (merge Sleep TrRec).
Proof.
  unfold rectangular_str, merge.
  cbn [str_index str_sleep str_RecPts str_RPE str_TSS str_Beers].
  rewrite length_omap_is_Some by apply inner_indexers_in_range.
  unfold take. rewrite !length_fmap. repeat split; try done.
  apply Forall_fmap, Forall_forall. intros [n s] _. cbn.
  by rewrite !length_fmap.
Qed.

Lemma length_matches (d : date) (r : list date) (b : nat) :
  length (matches d r b) = rows_dated d r.
Proof.
  unfold rows_dated. revert b. induction r as [|d' r IH]; intros b; [done|].
  cbn [matches]. rewrite filter_cons.
  destruct (decide (d = d')) as [->|Hne].
  - rewrite decide_True by done. cbn. by rewrite IH.
  - rewrite decide_False by congruence. apply IH.
Qed.

Lemma filter_replicate (d d0 : date) (n : nat) :
  filter (fun d' => d' = d) (replicate n d0)
  = if decide (d0 = d) then replicate n d0 else [].
Proof.
  induction n as [|n IH]; [by destruct (decide (d0 = d))|].
  cbn [replicate]. rewrite filter_cons, IH.
  by destruct (decide (d0 = d)).
Qed.

(** X7. The merged table has one row per pair of rows with the same date:
    its number of rows is the sum, over the rows of the Sleep table, of the
    number of Training/Recovery rows with the date of that row.  A date
    carried by m Sleep rows and n Training/Recovery rows thus gives m * n
    merged rows. *)
Theorem merge_row_count (Sleep : DataFrame Q) (TrRec : TrRecFrame) :
  length (str_index (merge Sleep TrRec))
  = sum_list_with (fun d => rows_dated d (tr_index TrRec)) (index Sleep)
  ∧ ∀ d, rows_dated d (str_index (merge Sleep TrRec))
         = (rows_dated d (index Sleep) * rows_dated d (tr_index TrRec))%nat.
Proof.
  rewrite merge_index. split.
  - induction (index Sleep) as [|d l IH]; [done|].
    rewrite bind_cons, length_app, length_replicate, length_matches.
    cbn [sum_list_with]. by rewrite IH.
  - intros d. unfold rows_dated at 1 2.
    induction (index Sleep) as [|d0 l IH]; [done|].
    rewrite bind_cons, filter_app, length_app, IH, filter_cons, length_matches.
    rewrite filter_replicate.
    destruct (decide (d0 = d)) as [->|Hne]; [|done].
    rewrite length_replicate. cbn [length]. lia.
Qed.

Lemma take_complete {A : Type} (pos : list nat) (col : list (option A)) :
  Forall (fun i => is_Some (col !! i)) pos → complete col →
  complete (take pos col).
Proof.
  unfold complete, take. intros Hpos Hcol. apply Forall_fmap.
  eapply Forall_impl; [exact Hpos|]. intros i [c Hc]. cbn. rewrite Hc. cbn.
  eapply Forall_lookup_1 in Hcol; [|exact Hc]. done.
Qed.

Lemma is_Some_lookup_same_length {A B : Type} (l : list A) (k : list B) :
  length k = length l →
  ∀ pos : list nat, Forall (fun i => is_Some (l !! i)) pos →
                    Forall (fun i => is_Some (k !! i)) pos.
Proof.
  intros Hlen pos Hpos. eapply Forall_impl; [exact Hpos|]. intros i Hi.
  apply lookup_lt_is_Some. rewrite Hlen. by apply lookup_lt_is_Some.
Qed.

(** X8. An inner join brings in no missing value: for rectangular inputs,
    a column without missing values in its table has none in the merged
    table. *)
Theorem merge_keeps_complete (Sleep : DataFrame Q) (TrRec : TrRecFrame) :
  rectangular Sleep →
  rectangular_trrec TrRec →
  let STR := merge Sleep TrRec in
  (∀ (p : nat) n s, columns Sleep !! p = Some (n, s) → complete s →
      ∃ s', str_sleep STR !! p = Some (n, s') ∧ complete s')
  ∧ (complete (RecPts TrRec) → complete (str_RecPts STR))
  ∧ (complete (RPE TrRec) → complete (str_RPE STR))
  ∧ (complete (TSS TrRec) → complete (str_TSS STR))
  ∧ (complete (Beers TrRec) → complete (str_Beers STR)).
Proof.
  intros HS (H1 & H2 & H3 & H4) STR. subst STR. unfold merge.
  cbn [str_sleep str_RecPts str_RPE str_TSS str_Beers].
  destruct (inner_indexers_in_range (index Sleep) (tr_index TrRec)) as [Hl Hr].
  split; [|repeat split; intros Hc; apply take_complete; try done;
           by eapply is_Some_lookup_same_length].
  intros p n s Hp Hc. eexists. rewrite list_lookup_fmap, Hp. split; [done|].
  apply take_complete; [|done].
  eapply is_Some_lookup_same_length; [|exact Hl].
  unfold rectangular in HS. eapply Forall_lookup_1 in HS; [|exact Hp]. done.
Qed.

End MergeRows.

Section InnerJoin.

(** C4 (amended). The merged table is the inner join of the cleaned tables
    on the date.  A date missing from either table is not in the merged
    index, and every merged column has one cell per merged row.  When the
    dates of each table are unique, a date of both tables is in the merged
    index exactly once, and the merged table has as many rows as there are
    dates present in both tables. *)
Theorem merge_is_inner_join (Sleep : DataFrame Q) (TrRec : TrRecFrame) :
  let STR := merge Sleep TrRec in
  (∀ d, d ∉ index Sleep ∨ d ∉ tr_index TrRec → d ∉ str_index STR)
  ∧ rectangular_str STR
  ∧ (NoDup (index Sleep) → NoDup (tr_index TrRec) →
       (∀ d, d ∈ index Sleep → d ∈ tr_index TrRec →
             rows_dated d (str_index STR) = 1%nat)
       ∧ length (str_index STR)
         = length (dates_in_both (index Sleep) (tr_index TrRec))).
Proof.
  intros STR. subst STR. split; [|split].
  - intros d Hout Hin. apply merge_index_sound in Hin. tauto.
  - apply merge_is_rectangular.
  - intros Hl Hr. rewrite merge_index_NoDup by done. split.
    + intros d Hdl Hdr. unfold rows_dated.
      apply filter_eq_NoDup; [by apply NoDup_filter|].
      by apply list_elem_of_filter.
    + unfold dates_in_both.
      by rewrite remove_dups_NoDup by by apply NoDup_filter.
Qed.

End InnerJoin.

Section Output.

Variable parse_date : string → option date.
Variable str_to_float : string → option Q.

(** X9. The table the run writes out has no missing exertion-rating and no
    missing training-stress-score, and a Sleep column is without missing
    values as soon as its source column has one present value; the source
    tables are taken rectangular. *)
Theorem pipeline_output_complete
    (Sleep : RawFrame Q) (TrRec : RawFrame obj) (STR : STRFrame) :
  rectangular_raw Sleep →
  rectangular_raw TrRec →
  pipeline parse_date str_to_float Sleep TrRec = Ok STR →
  complete (str_RPE STR)
  ∧ complete (str_TSS STR)
  ∧ ∀ (p : nat) label0 s0, raw_cols Sleep !! p = Some (label0, s0) →
      ¬ all_missing s0 →
      ∃ n s', str_sleep STR !! p = Some (n, s') ∧ complete s'.
Proof.
  intros HrS HrT. unfold pipeline.
  destruct (clean_sleep parse_date Sleep) as [cleaned|e] eqn:HS;
    cbn [mbind result_bind]; [|done].
  destruct (clean_trrec parse_date str_to_float TrRec) as [f|e] eqn:HT;
    cbn [mbind result_bind]; [|done].
  intros [= <-].
  destruct (cleaners_keep_shape _ _ _ _ _ _ HS HT) as (_ & _ & HwS & HwT).
  specialize (HwS HrS). destruct (HwT HrT) as (_ & HlRPE & HlTSS & _).
  destruct (inner_indexers_in_range (index cleaned) (tr_index f)) as [Hl Hr].
  unfold merge. cbn [str_RPE str_TSS str_sleep].
  apply clean_sleep_Ok in HS as (dS & HdS & HlS & ->).
  apply clean_trrec_Ok in HT
    as (dT & n1 & c1 & n2 & c2 & n3 & c3 & n4 & c4 & HdT & HcT & ->).
  cbn [RPE TSS tr_index index columns] in *.
  split; [|split].
  - apply take_complete; [|apply fillna_complete].
    by eapply is_Some_lookup_same_length.
  - apply take_complete; [|apply np_where_isnull_complete].
    by eapply is_Some_lookup_same_length.
  - intros p label0 s0 Hp Hsome.
    destruct (lookup_lt_is_Some_2 sleep_names p) as [n Hn].
    { apply lookup_lt_Some in Hp. rewrite HlS in Hp. done. }
    assert (Hcol : zip sleep_names
                     ((fun s => fillna s (series_mean s)) <$> (raw_cols Sleep).*2)
                   !! p = Some (n, fillna s0 (series_mean s0))).
    { by rewrite lookup_zip_with, Hn, !list_lookup_fmap, Hp. }
    exists n. eexists. rewrite list_lookup_fmap, Hcol. split; [done|].
    apply take_complete.
    + eapply is_Some_lookup_same_length; [|exact Hl].
      unfold rectangular in HwS. cbn [columns index] in HwS.
      eapply Forall_lookup_1 in HwS; [|exact Hcol]. done.
    + destruct (series_mean_complete s0); done.
Qed.

End Output.


Section RuleOrder.

(** From a condition on a cell to the range it decides. *)
Ltac cond_to_range H :=
  repeat match type of H with
  | (_ && _ = true) => apply andb_true_iff in H; destruct H as [? H]
  end;
  repeat match goal with
  | G : Qeq_bool _ _ = true |- _ => apply Qeq_bool_iff in G
  | G : Qle_bool _ _ = true |- _ => apply Qle_bool_iff in G
  | G : negb (Qle_bool _ _) = true |- _ =>
      apply negb_true_iff in G; apply not_true_iff_false in G;
      rewrite Qle_bool_iff in G
  end.

(** No cell satisfies two of the five conditions. *)
Lemma tss_conditions_disjoint (c : option Q) (i j : nat) p q :
  i ≠ j → tss_conditions !! i = Some p → tss_conditions !! j = Some q →
  p c = true → q c = false.
Proof.
  intros Hij Hp Hq Hpc. apply not_true_is_false. intros Hqc. revert Hpc Hqc.
  destruct i as [|[|[|[|[|i]]]]]; cbn in Hp; try done; injection Hp as <-;
    (destruct c as [x|]; [|done]);
    destruct j as [|[|[|[|[|j]]]]]; cbn in Hq; try done; injection Hq as <-;
    try (by destruct Hij);
    intros Hpc Hqc; cond_to_range Hpc; cond_to_range Hqc; lra.
Qed.

Lemma select_row_hit (ps : list ((option Q → bool) * Q)) (c : option Q) p v :
  (∀ p1 v1 p2 v2, (p1, v1) ∈ ps → (p2, v2) ∈ ps →
                  p1 c = true → p2 c = true → v1 = v2) →
  (p, v) ∈ ps → p c = true → select_row ps.*1 ps.*2 c = v.
Proof.
  induction ps as [|[p0 v0] ps IH]; intros Hagree Hin Hpc;
    [by apply elem_of_nil in Hin|].
  rewrite !fmap_cons. cbn [select_row fst snd].
  destruct (p0 c) eqn:Hp0.
  - apply (Hagree p0 v0 p v); [left|done..].
  - apply elem_of_cons in Hin as [[= -> ->]|Hin]; [congruence|].
    apply IH; [|done..]. intros p1 v1 p2 v2 H1 H2.
    apply Hagree; by right.
Qed.

Lemma select_row_miss (ps : list ((option Q → bool) * Q)) (c : option Q) :
  (∀ p v, (p, v) ∈ ps → p c = false) → select_row ps.*1 ps.*2 c = 0%Q.
Proof.
  induction ps as [|[p0 v0] ps IH]; intros Hno; [done|].
  rewrite !fmap_cons. cbn [select_row fst snd].
  rewrite (Hno p0 v0) by left. apply IH. intros p v Hin.
  apply (Hno p v). by right.
Qed.

Lemma tss_pairs_agree (c : option Q) p1 v1 p2 v2 :
  (p1, v1) ∈ zip tss_conditions tss_values →
  (p2, v2) ∈ zip tss_conditions tss_values →
  p1 c = true → p2 c = true → v1 = v2.
Proof.
  intros [i Hi]%list_elem_of_lookup [j Hj]%list_elem_of_lookup H1 H2.
  apply lookup_zip_with_Some in Hi as (p & v & [= -> ->] & Hp & Hv).
  apply lookup_zip_with_Some in Hj as (q & w & [= -> ->] & Hq & Hw).
  destruct (decide (i = j)) as [->|Hij]; [congruence|].
  by rewrite (tss_conditions_disjoint c i j p q Hij Hp Hq H1) in H2.
Qed.

(** X11. No row satisfies two of the five conditions on the
    exertion-rating, so the order of the rules is immaterial: [np.select]
    on the condition and value pairs taken in any other order returns the
    same array. *)
Theorem tss_rule_order_immaterial
    (pairs : list ((option Q → bool) * Q)) (s : Series) :
  pairs ≡ₚ zip tss_conditions tss_values →
  np_select (length s) ((fun p => p <$> s) <$> pairs.*1) pairs.*2
  = np_select (length s) ((fun p => p <$> s) <$> tss_conditions) tss_values.
Proof.
  intros Hperm. rewrite !np_select_rows. apply list_fmap_ext. intros _ c _.
  change tss_conditions with (zip tss_conditions tss_values).*1.
  change tss_values with (zip tss_conditions tss_values).*2 at 2.
  assert (Hagree : ∀ p1 v1 p2 v2, (p1, v1) ∈ pairs → (p2, v2) ∈ pairs →
                                  p1 c = true → p2 c = true → v1 = v2).
  { intros p1 v1 p2 v2 H1 H2. rewrite Hperm in H1, H2.
    by apply tss_pairs_agree. }
  destruct (decide (Exists (fun pv => pv.1 c = true) pairs)) as [Hex|Hno].
  - apply Exists_exists in Hex as ([p v] & Hin & Hpc). cbn in Hpc.
    rewrite (select_row_hit pairs c p v Hagree Hin Hpc).
    symmetry. apply (select_row_hit _ c p v); [|by rewrite <- Hperm|done].
    intros p1 v1 p2 v2. apply tss_pairs_agree.
  - assert (Hall : ∀ p v, (p, v) ∈ pairs → p c = false).
    { intros p v Hin. apply not_true_is_false. intros Hpc. apply Hno.
      apply Exists_exists. by exists (p, v). }
    rewrite (select_row_miss pairs c Hall).
    symmetry. apply select_row_miss. intros p v Hin. rewrite <- Hperm in Hin.
    by apply (Hall p v).
Qed.

End RuleOrder.

Section RuleValues.

Variable parse_date : string → option date.
Variable str_to_float : string → option Q.

Lemma select_row_elem (conds : list (option Q → bool)) (choices : list Q)
    (c : option Q) :
  select_row conds choices c ∈ 0%Q :: choices.
Proof.
  revert choices. induction conds as [|p conds IH]; intros [|v choices];
    cbn [select_row]; try by left.
  destruct (p c); [right; left|].
  specialize (IH choices). apply elem_of_cons in IH as [->|IH]; [left|].
  by do 2 right.
Qed.

(** X12. Every cleaned training-stress-score is the source score, when it
    coerces to a number, or else one of the five values of the rule table:
    the imputation brings in no other value. *)
Theorem tss_source_or_table_value
    (TrRec : RawFrame obj) (f : TrRecFrame) n3 c3 (i : nat) tcell rpe :
  clean_trrec parse_date str_to_float TrRec = Ok f →
  raw_cols TrRec !! 2%nat = Some (n3, c3) →
  c3 !! i = Some tcell →
  RPE f !! i = Some rpe →
  ∃ v, TSS f !! i = Some (Some v)
       ∧ (to_numeric_cell str_to_float tcell = Some v
          ∨ (to_numeric_cell str_to_float tcell = None ∧ v ∈ tss_values)).
Proof.
  intros Hf Hc Ht Hr. rewrite (TSS_row _ _ _ _ _ _ _ _ _ Hf Hc Ht Hr).
  destruct (to_numeric_cell str_to_float tcell) as [x|].
  - exists x. by split; [|left].
  - eexists. split; [done|]. right. split; [done|].
    pose proof (select_row_elem tss_conditions tss_values rpe) as Hin.
    apply elem_of_cons in Hin as [->|Hin]; [by left|done].
Qed.

(** X13. A day without workout: in a row where neither the exertion-rating
    nor the training-stress-score coerces to a number, the cleaned rating
    is 0 and the cleaned score is 0. *)
Theorem no_workout_row
    (TrRec : RawFrame obj) (f : TrRecFrame) n2 c2 n3 c3 (i : nat) rcell tcell :
  clean_trrec parse_date str_to_float TrRec = Ok f →
  raw_cols TrRec !! 1%nat = Some (n2, c2) →
  raw_cols TrRec !! 2%nat = Some (n3, c3) →
  c2 !! i = Some rcell →
  c3 !! i = Some tcell →
  to_numeric_cell str_to_float rcell = None →
  to_numeric_cell str_to_float tcell = None →
  RPE f !! i = Some (Some 0%Q) ∧ TSS f !! i = Some (Some 0%Q).
Proof.
  intros Hf H2 H3 Hr Ht Hrn Htn.
  assert (HRPE : RPE f !! i = Some (Some 0%Q)).
  { apply clean_trrec_Ok in Hf
      as (dT & n1 & c1 & n2' & c2' & n3' & c3' & n4 & c4 & _ & HcT & ->).
    rewrite HcT in H2. injection H2 as <- <-. cbn [RPE].
    rewrite fillna_lookup. unfold to_numeric.
    by rewrite list_lookup_fmap, Hr; cbn; rewrite Hrn. }
  split; [done|].
  by rewrite (TSS_row _ _ _ _ _ _ _ _ _ Hf H3 Ht HRPE), Htn.
Qed.

(** The rule that holds of a non-negative rating with one decimal. *)
Lemma first_match_tenths (r : Q) (k : Z) :
  (0 ≤ k)%Z → (r == k # 10)%Q →
  (k = 0%Z ∧ first_match spec_tss_table r 0%Q)
  ∨ ((1 ≤ k ≤ 30)%Z ∧ first_match spec_tss_table r 41%Q)
  ∨ ((31 ≤ k ≤ 50)%Z ∧ first_match spec_tss_table r 53%Q)
  ∨ ((51 ≤ k ≤ 70)%Z ∧ first_match spec_tss_table r 77%Q)
  ∨ ((71 ≤ k)%Z ∧ first_match spec_tss_table r 85%Q).
Proof.
  intros Hk Hr.
  assert (H10 : (10 * r == inject_Z k)%Q).
  { rewrite Hr. unfold Qeq. cbn. lia. }
  unfold spec_tss_table.
  assert (Hcases : (k = 0 ∨ 1 ≤ k ≤ 30 ∨ 31 ≤ k ≤ 50 ∨ 51 ≤ k ≤ 70 ∨ 71 ≤ k)%Z)
    by lia.
  assert (HQ : ∀ a b : Z, (a ≤ b)%Z → (inject_Z a <= inject_Z b)%Q).
  { intros a b. by rewrite Zle_Qle. }
  remember (inject_Z k) as q eqn:Hq.
  destruct Hcases as [H|[[Ha Hb]|[[Ha Hb]|[[Ha Hb]|Ha]]]].
  - left. split; [done|]. assert (q == 0)%Q by (by rewrite Hq, H).
    apply fm_here. cbn. lra.
  - right; left. split; [done|].
    apply HQ in Ha as Ha', Hb as Hb'. rewrite <- Hq in Ha', Hb'.
    unfold inject_Z in Ha', Hb'.
    apply fm_later; [cbn; lra|]. apply fm_here. cbn. lra.
  - do 2 right; left. split; [done|].
    apply HQ in Ha as Ha', Hb as Hb'. rewrite <- Hq in Ha', Hb'.
    unfold inject_Z in Ha', Hb'.
    do 2 (apply fm_later; [cbn; lra|]). apply fm_here. cbn. lra.
  - do 3 right; left. split; [done|].
    apply HQ in Ha as Ha', Hb as Hb'. rewrite <- Hq in Ha', Hb'.
    unfold inject_Z in Ha', Hb'.
    do 3 (apply fm_later; [cbn; lra|]). apply fm_here. cbn. lra.
  - do 4 right. split; [done|].
    apply HQ in Ha as Ha'. rewrite <- Hq in Ha'. unfold inject_Z in Ha'.
    do 4 (apply fm_later; [cbn; lra|]). apply fm_here. cbn. lra.
Qed.

(** X14. On non-negative ratings with at most one decimal the rule table
    has no gap and is monotone: in two rows without a score whose cleaned
    ratings are such numbers, each score is imputed by a rule of the table,
    and the row with the smaller rating does not get the larger score. *)
Theorem tss_monotone_on_tenths
    (TrRec : RawFrame obj) (f : TrRecFrame) n3 c3
    (i1 i2 : nat) t1 t2 (r1 r2 : Q) (k1 k2 : Z) :
  clean_trrec parse_date str_to_float TrRec = Ok f →
  raw_cols TrRec !! 2%nat = Some (n3, c3) →
  c3 !! i1 = Some t1 → to_numeric_cell str_to_float t1 = None →
  c3 !! i2 = Some t2 → to_numeric_cell str_to_float t2 = None →
  RPE f !! i1 = Some (Some r1) → (0 ≤ k1)%Z → (r1 == k1 # 10)%Q →
  RPE f !! i2 = Some (Some r2) → (0 ≤ k2)%Z → (r2 == k2 # 10)%Q →
  ∃ v1 v2,
    TSS f !! i1 = Some (Some v1) ∧ first_match spec_tss_table r1 v1
    ∧ TSS f !! i2 = Some (Some v2) ∧ first_match spec_tss_table r2 v2
    ∧ ((r1 <= r2)%Q → (v1 <= v2)%Q).
Proof.
  intros Hf Hc Ht1 Hn1 Ht2 Hn2 Hr1 Hk1 Hq1 Hr2 Hk2 Hq2.
  assert (Himp : ∀ i t r v, c3 !! i = Some t →
            to_numeric_cell str_to_float t = None →
            RPE f !! i = Some (Some r) → first_match spec_tss_table r v →
            TSS f !! i = Some (Some v)).
  { intros i t r v Ht Hn Hr Hv.
    rewrite (TSS_row _ _ _ _ _ _ _ _ _ Hf Hc Ht Hr), Hn, tss_values_spec.
    by rewrite (select_row_first_match _ _ _ _ tss_conditions_spec Hv). }
  assert (Hle : (r1 <= r2)%Q → (k1 ≤ k2)%Z).
  { rewrite Hq1, Hq2. unfold Qle. cbn. lia. }
  destruct (first_match_tenths r1 k1 Hk1 Hq1)
    as [[A1 F1]|[[A1 F1]|[[A1 F1]|[[A1 F1]|[A1 F1]]]]];
  destruct (first_match_tenths r2 k2 Hk2 Hq2)
    as [[A2 F2]|[[A2 F2]|[[A2 F2]|[[A2 F2]|[A2 F2]]]]];
  eexists _, _;
  (split; [exact (Himp _ _ _ _ Ht1 Hn1 Hr1 F1)|]);
  (split; [exact F1|]);
  (split; [exact (Himp _ _ _ _ Ht2 Hn2 Hr2 F2)|]);
  (split; [exact F2|]);
  intros Hr; apply Hle in Hr; try lia; by vm_compute.
Qed.

End RuleValues.

(** C4, as stated, fails on the row count: the cleaners return the two
    sample tables, one date is present in both, and since two
    Training/Recovery rows carry it the merged table has two rows. *)
Lemma repeated_date_multiplies_rows :
  ∃ cleaned f,
    clean_sleep iso_date sleep_sample = Ok cleaned
    ∧ clean_trrec iso_date decimal_float trrec_same_day = Ok f
    ∧ dates_in_both (index cleaned) (tr_index f) = [Date 2019 6 2]
    ∧ length (dates_in_both (index cleaned) (tr_index f)) = 1%nat
    ∧ str_index (merge cleaned f) = [Date 2019 6 2; Date 2019 6 2]
    ∧ length (str_index (merge cleaned f)) = 2%nat.
Proof.
  eexists _, _. split; [vm_compute; reflexivity|].
  split; [vm_compute; reflexivity|]. by vm_compute.
Qed.

Lemma merge_is_inner_join_witness :
  length (str_index (merge sleep_cleaned_sample trrec_cleaned_sample))
  = length (dates_in_both (index sleep_cleaned_sample)
                          (tr_index trrec_cleaned_sample))
  ∧ rows_dated (Date 2019 6 2)
      (str_index (merge sleep_cleaned_sample trrec_cleaned_sample)) = 1%nat
  ∧ Date 2019 6 1 ∉ str_index (merge sleep_cleaned_sample trrec_cleaned_sample).
Proof.
  assert (Hl : NoDup (index sleep_cleaned_sample)).
  { apply (bool_decide_unpack _). vm_compute. exact I. }
  assert (Hr : NoDup (tr_index trrec_cleaned_sample)).
  { apply (bool_decide_unpack _). vm_compute. exact I. }
  destruct (merge_is_inner_join sleep_cleaned_sample trrec_cleaned_sample)
    as (Hout & _ & Huniq).
  destruct (Huniq Hl Hr) as (Honce & Hlen).
  split; [exact Hlen|]. split.
  - apply Honce; apply (bool_decide_unpack _); vm_compute; exact I.
  - apply Hout. right. apply (bool_decide_unpack _). vm_compute. exact I.
Defined.

(** * The further properties at the sample tables *)

Lemma clean_sleep_raises_witness :
  clean_sleep iso_date sleep_bad_date = Raise (ParserError "yesterday").
Proof.
  apply (proj2 (clean_sleep_raises iso_date sleep_bad_date
                  (ParserError "yesterday"))).
  left. reflexivity.
Defined.

Lemma clean_trrec_raises_witness :
  clean_trrec iso_date decimal_float trrec_three_columns
  = Raise (LengthMismatch 3 4).
Proof.
  apply (proj2 (clean_trrec_raises iso_date decimal_float
                  trrec_three_columns (LengthMismatch 3 4))).
  right. split; [eexists; reflexivity|]. split; [cbn; lia|reflexivity].
Defined.

Lemma pipeline_returns_iff_witness :
  pipeline iso_date decimal_float sleep_bad_date trrec_three_columns
  = Raise (ParserError "yesterday")
  ∧ ∃ STR, pipeline iso_date decimal_float sleep_sample trrec_sample = Ok STR.
Proof.
  split.
  - apply (proj2 (pipeline_returns_iff iso_date decimal_float
                    sleep_bad_date trrec_three_columns)).
    reflexivity.
  - apply (proj1 (pipeline_returns_iff iso_date decimal_float
                    sleep_sample trrec_sample)).
    split; [eexists; reflexivity|]. split; [reflexivity|].
    split; [eexists; reflexivity|reflexivity].
Defined.

Lemma cleaners_ignore_source_labels_witness :
  clean_trrec iso_date decimal_float trrec_relabelled
  = clean_trrec iso_date decimal_float trrec_sample.
Proof.
  apply (proj2 (cleaners_ignore_source_labels iso_date decimal_float));
    reflexivity.
Defined.

Lemma merge_rows_are_matching_pairs_witness :
  ∃ k : nat,
    str_index (merge sleep_cleaned_sample trrec_cleaned_sample) !! k
      = Some (Date 2019 6 2)
    ∧ str_TSS (merge sleep_cleaned_sample trrec_cleaned_sample) !! k
      = Some (Some 100%Q).
Proof.
  destruct (proj1 (merge_rows_are_matching_pairs
                     sleep_cleaned_sample trrec_cleaned_sample)
              1%nat 0%nat (Date 2019 6 2) eq_refl eq_refl)
    as (k & Hk & _ & _ & _ & HTSS & _).
  exists k. split; [exact Hk|]. apply HTSS. reflexivity.
Defined.

Lemma merge_keeps_complete_witness :
  complete (str_RPE (merge sleep_cleaned_sample trrec_cleaned_sample))
  ∧ complete (str_TSS (merge sleep_cleaned_sample trrec_cleaned_sample)).
Proof.
  assert (HS : rectangular sleep_cleaned_sample)
    by (repeat constructor).
  assert (HT : rectangular_trrec trrec_cleaned_sample)
    by (repeat split; reflexivity).
  destruct (merge_keeps_complete sleep_cleaned_sample trrec_cleaned_sample
              HS HT) as (_ & _ & HRPE & HTSS & _).
  split; [apply HRPE|apply HTSS]; repeat constructor; discriminate.
Defined.

Lemma pipeline_output_complete_witness :
  ∃ STR, pipeline iso_date decimal_float sleep_sample trrec_sample = Ok STR
         ∧ complete (str_RPE STR) ∧ complete (str_TSS STR).
Proof.
  destruct (pipeline iso_date decimal_float sleep_sample trrec_sample)
    as [STR|e] eqn:HP; [|by vm_compute in HP].
  exists STR. split; [reflexivity|].
  assert (HS : rectangular_raw sleep_sample) by (repeat constructor).
  assert (HT : rectangular_raw trrec_sample) by (repeat constructor).
  destruct (pipeline_output_complete iso_date decimal_float
              sleep_sample trrec_sample STR HS HT HP) as (HRPE & HTSS & _).
  exact (conj HRPE HTSS).
Defined.

Lemma tss_rule_order_immaterial_witness :
  np_select 3
    ((fun p => p <$> [Some 2; Some 4; Some 0]%Q)
       <$> (reverse (zip tss_conditions tss_values)).*1)
    (reverse (zip tss_conditions tss_values)).*2
  = [41; 53; 0]%Q.
Proof.
  etransitivity;
    [exact (tss_rule_order_immaterial
              (reverse (zip tss_conditions tss_values))
              [Some 2; Some 4; Some 0]%Q (reverse_Permutation _))
    |reflexivity].
Defined.

Lemma tss_source_or_table_value_witness :
  ∃ f v, clean_trrec iso_date decimal_float trrec_sample = Ok f
         ∧ TSS f !! 1%nat = Some (Some v) ∧ v ∈ tss_values.
Proof.
  destruct (clean_trrec iso_date decimal_float trrec_sample) as [f|e] eqn:HT;
    [|by vm_compute in HT].
  pose proof HT as Hf. vm_compute in Hf. injection Hf as <-.
  destruct (tss_source_or_table_value iso_date decimal_float trrec_sample _
              "trainingTSS" [Some (Num 100); None; None] 1 None (Some 4%Q)
              HT eq_refl eq_refl eq_refl)
    as (v & Hv & [[=]|[_ Hin]]).
  by eexists _, v.
Defined.

Lemma no_workout_row_witness :
  ∃ f, clean_trrec iso_date decimal_float trrec_sample = Ok f
       ∧ RPE f !! 2%nat = Some (Some 0%Q) ∧ TSS f !! 2%nat = Some (Some 0%Q).
Proof.
  destruct (clean_trrec iso_date decimal_float trrec_sample) as [f|e] eqn:HT;
    [|by vm_compute in HT].
  exists f. split; [reflexivity|].
  exact (no_workout_row iso_date decimal_float trrec_sample f
           "trainingRPE" [Some (Num 2); Some (Num 4); None]
           "trainingTSS" [Some (Num 100); None; None] 2 None None
           HT eq_refl eq_refl eq_refl eq_refl eq_refl eq_refl).
Defined.

Lemma tss_monotone_on_tenths_witness :
  ∃ f v1 v2,
    clean_trrec iso_date decimal_float trrec_sample = Ok f
    ∧ TSS f !! 2%nat = Some (Some v1) ∧ TSS f !! 1%nat = Some (Some v2)
    ∧ (v1 <= v2)%Q.
Proof.
  destruct (clean_trrec iso_date decimal_float trrec_sample) as [f|e] eqn:HT;
    [|by vm_compute in HT].
  pose proof HT as Hf. vm_compute in Hf. injection Hf as <-.
  destruct (tss_monotone_on_tenths iso_date decimal_float trrec_sample _
              "trainingTSS" [Some (Num 100); None; None] 2 1 None None
              0%Q 4%Q 0%Z 40%Z
              HT eq_refl eq_refl eq_refl eq_refl eq_refl
              eq_refl (Z.le_refl 0) eq_refl
              eq_refl (Zle_0_pos 40) eq_refl)
    as (v1 & v2 & H1 & _ & H2 & _ & Hle).
  eexists _, v1, v2. split; [reflexivity|]. split; [exact H1|].
  split; [exact H2|]. apply Hle. discriminate.
Defined.
